(** * Youtube-Thubnail: the processing pipeline of [src/api/main.py] and
      [src/api/process_video.py]

    The development embeds the two Python modules shallowly:
    - the pure part (loudness ranking, [format_time], the timestamp parse of
      [extract_frame]) as total functions over [Z], [string] and lists;
    - the effectful part (download, audio extraction, transcription, frame
      extraction, clean-up) in a state-and-exception monad over a scratch
      file system ([gmap string bytes]), a call trace and the process log.

    External collaborators (yt-dlp, ffmpeg/moviepy, pydub, the speech-to-text
    service, [uuid.uuid4], the clock) are not part of the repository; what
    they answer is read from a [World] record. *)

From Stdlib Require Import ZArith QArith Qround Lia String Ascii List.
From Stdlib Require Import Sorting.Sorted Sorting.Permutation.
From Stdlib Require Strings.Byte.
From stdpp Require Import base gmap strings list.

Close Scope Q_scope.
Local Open Scope Z_scope.

(** ** Loudness values

    [segment.dBFS] is a Python float.  pydub computes it from an integer RMS
    and a positive full-scale amplitude, so it is never NaN: it is either
    [-inf] (silence) or a finite double.  Every finite double is an integer
    multiple of 2^-1074, so a finite value is represented by that integer;
    the map preserves [==] and [<] (both zeros go to [0]). *)
Inductive dBFS : Type :=
  | NegInf
  | Fin (x : Z).

Definition dBFS_eqb (a b : dBFS) : bool :=
  match a, b with
  | NegInf, NegInf => true
  | Fin x, Fin y => x =? y
  | _, _ => false
  end.

Definition dBFS_ltb (a b : dBFS) : bool :=
  match a, b with
  | NegInf, NegInf => false
  | NegInf, Fin _ => true
  | Fin _, NegInf => false
  | Fin x, Fin y => x <? y
  end.

(** [a >= b] on floats without NaN. *)
Definition dBFS_geb (a b : dBFS) : bool := negb (dBFS_ltb a b).

(** A loudness score is the Python tuple [(loudness, i)]. *)
Definition Score : Type := dBFS * Z.

(** Python compares tuples lexicographically: the first position where the
    components differ (by [==]) decides, by [<]. *)
Definition tuple_lt (p q : Score) : bool :=
  if dBFS_eqb p.1 q.1 then p.2 <? q.2 else dBFS_ltb p.1 q.1.

(** ** [sorted(xs, reverse=True)]

    Python's sort is stable, also under [reverse=True]: the result is in
    descending order and elements none of which is [<] the other keep their
    input order.  It only ever asks [<].  The model is the stable insertion
    sort with that contract. *)
Section Sorted.
Context {A : Type} (lt : A → A → bool).

Fixpoint insert_desc (x : A) (l : list A) : list A :=
  match l with
  | [] => [x]
  | y :: l' => if lt x y then y :: insert_desc x l' else x :: y :: l'
  end.

Definition sorted_reverse (l : list A) : list A :=
  foldr insert_desc [] l.
End Sorted.

(** ** pydub's [AudioSegment], as far as the code looks at it

    [duration_seconds] is [frame_count / frame_rate]; [audio[a:b].dBFS] is the
    loudness of the slice between [a] and [b] milliseconds. *)
Record AudioSegment : Type := {
  frame_count : N;
  frame_rate : positive;
  slice_dBFS : Z → Z → dBFS
}.

Definition duration_seconds (audio : AudioSegment) : Q :=
  Qmake (Z.of_N (frame_count audio)) (frame_rate audio).

(** [int(x)] on a float truncates toward zero. *)
Definition int_of_float (x : Q) : Z := Z.quot (Qnum x) (Zpos (Qden x)).

(** ** Decimal rendering: the format spec [02d] *)

Definition digit_char (d : Z) : ascii :=
  ascii_of_nat (48 + Z.to_nat d).

(** The decimal digits of [n >= 0], most significant first, in front of
    [acc].  [fuel] bounds the number of digits. *)
Fixpoint digits_from (fuel : nat) (n : Z) (acc : string) : string :=
  match fuel with
  | O => acc
  | S fuel' =>
      let acc' := String (digit_char (n mod 10)) acc in
      if n / 10 =? 0 then acc' else digits_from fuel' (n / 10) acc'
  end.

(** [str(n)] for [n >= 0]: no digit is lost, [n < 2 ^ Z.log2_up (n + 1)]
    and each decimal digit takes more than one bit.  CPython refuses to
    convert an integer of more than 4300 digits (unless configured
    otherwise); the function is total, and stands for the code on numbers
    below [10 ^ 4300] only. *)
Definition decimal (n : Z) : string :=
  digits_from (S (Z.to_nat (Z.log2_up (n + 1)))) n EmptyString.

(** [f"{n:02d}"]: sign-aware zero padding to width 2. *)
Definition fmt_02d (n : Z) : string :=
  if n <? 0 then String "-" (decimal (- n))
  else
    let ds := decimal n in
    if (String.length ds <? 2)%nat then String "0" ds else ds.

(** [format_time] (main.py:91-96, process_video.py:47-51); [//] and [%]
    are floor division and its remainder, which [Z.div] and [Z.modulo] are
    for a positive divisor. *)
Definition format_time (seconds : Z) : string :=
  let h := seconds / 3600 in
  let m := (seconds mod 3600) / 60 in
  let s := seconds mod 60 in
  fmt_02d h +:+ ":" +:+ fmt_02d m +:+ ":" +:+ fmt_02d s.

(** ** Exceptions

    What the code can tell about an exception is [str(e)].  [PyError msg] is
    any builtin or library exception whose [str] is [msg]; FastAPI's
    [HTTPException] prints as [f"{status_code}: {detail}"]. *)
Inductive Exception : Type :=
  | PyError (msg : string)
  | HTTPException (status_code : Z) (detail : string).

Definition str_exc (e : Exception) : string :=
  match e with
  | PyError msg => msg
  | HTTPException c d => (if c <? 0 then String "-" (decimal (- c)) else decimal c)
                           +:+ ": " +:+ d
  end.

Inductive result (A : Type) : Type :=
  | Ok (a : A)
  | Raise (e : Exception).
Arguments Ok {A} a.
Arguments Raise {A} e.

(** ** Parsing a timestamp: [map(int, time_str.split(":"))] *)

(** [s.split(":")]: the pieces between the separators, at least one. *)
Fixpoint split_colon (s : string) : list string :=
  match s with
  | EmptyString => [EmptyString]
  | String c rest =>
      if Ascii.eqb c ":" then EmptyString :: split_colon rest
      else match split_colon rest with
           | piece :: pieces => String c piece :: pieces
           | [] => [String c EmptyString]
           end
  end.

(** Strings are ASCII text here: a Python [str] all of whose characters are
    below 128, character by character.  On such a string [int] skips the
    surrounding space, [\t], [\n], [\v], [\f] and [\r], and reads the digits
    [0]..[9]; what it does with other Unicode digits and spaces is outside the
    model. *)
Definition is_space (c : ascii) : bool :=
  let n := nat_of_ascii c in
  ((n =? 32) || ((9 <=? n) && (n <=? 13)))%nat.

Definition digit_val (c : ascii) : option Z :=
  let n := nat_of_ascii c in
  if ((48 <=? n) && (n <=? 57))%nat then Some (Z.of_nat n - 48) else None.

Fixpoint lstrip (l : list ascii) : list ascii :=
  match l with
  | c :: l' => if is_space c then lstrip l' else l
  | [] => []
  end.

Definition strip (l : list ascii) : list ascii :=
  rev (lstrip (rev (lstrip l))).

(** Digits, with single underscores allowed between two digits. *)
Fixpoint parse_digits (l : list ascii) (acc : Z) (after_digit : bool) : option Z :=
  match l with
  | [] => if after_digit then Some acc else None
  | c :: l' =>
      match digit_val c with
      | Some d => parse_digits l' (10 * acc + d) true
      | None =>
          if Ascii.eqb c "_" && after_digit then parse_digits l' acc false
          else None
      end
  end.

(** [repr(s)] of an ASCII string: single quotes, unless the string holds a
    single and no double quote; the quote in use and the backslash are
    escaped, tab, newline and carriage return are written [\t], [\n], [\r],
    and the other control characters [\xNN]. *)
Definition hex_char (n : nat) : ascii :=
  ascii_of_nat (if (n <? 10)%nat then 48 + n else 87 + n).

Fixpoint repr_body (quote : ascii) (s : string) : string :=
  match s with
  | EmptyString => EmptyString
  | String c rest =>
      let n := nat_of_ascii c in
      let tail := repr_body quote rest in
      if Ascii.eqb c quote || Ascii.eqb c "\" then String "\" (String c tail)
      else if (n =? 9)%nat then String "\" (String "t" tail)
      else if (n =? 10)%nat then String "\" (String "n" tail)
      else if (n =? 13)%nat then String "\" (String "r" tail)
      else if ((n <? 32) || (n =? 127))%nat then
        String "\" (String "x" (String (hex_char (n / 16))
                                  (String (hex_char (n mod 16)) tail)))
      else String c tail
  end.

Definition py_repr (s : string) : string :=
  let has (c : ascii) := existsb (Ascii.eqb c) (list_ascii_of_string s) in
  let double := ascii_of_nat 34 in
  let quote := if has "'"%char && negb (has double) then double else "'"%char in
  String quote (repr_body quote s +:+ String quote EmptyString).

(** [int(s)] on ASCII text: surrounding whitespace, an optional sign, decimal
    digits.  CPython's cap on the number of digits of a literal (4300 unless
    configured otherwise) is left out: on a literal of more digits the code
    raises and this function answers. *)
Definition int_of_str (s : string) : result Z :=
  let l := strip (list_ascii_of_string s) in
  let body :=
    match l with
    | "-"%char :: l' => Z.opp <$> parse_digits l' 0 false
    | "+"%char :: l' => parse_digits l' 0 false
    | _ => parse_digits l 0 false
    end in
  match body with
  | Some n => Ok n
  | None => Raise (PyError ("invalid literal for int() with base 10: " +:+ py_repr s))
  end.

Definition result_bind {A B} (r : result A) (k : A → result B) : result B :=
  match r with
  | Ok a => k a
  | Raise e => Raise e
  end.

(** [h, m, s = map(int, time_str.split(":"))] then
    [h * 3600 + m * 60 + s] (main.py:102-103, process_video.py:56-57).
    [map] is lazy: the unpacking converts piece by piece, and asks for a
    fourth one to find out that there are too many. *)
Definition parse_time (time_str : string) : result Z :=
  let not_enough (got : string) : result Z :=
    Raise (PyError ("not enough values to unpack (expected 3, got " +:+ got +:+ ")")) in
  match split_colon time_str with
  | [] => not_enough "0"
  | [a] => result_bind (int_of_str a) (λ _, not_enough "1")
  | [a; b] =>
      result_bind (int_of_str a) (λ _,
      result_bind (int_of_str b) (λ _, not_enough "2"))
  | a :: b :: c :: more =>
      result_bind (int_of_str a) (λ h,
      result_bind (int_of_str b) (λ m,
      result_bind (int_of_str c) (λ s,
        match more with
        | [] => Ok (h * 3600 + m * 60 + s)
        | d :: _ =>
            result_bind (int_of_str d) (λ _,
              Raise (PyError "too many values to unpack (expected 3)"))
        end)))
  end.

(** ** The ranking of [extract_audio_peaks]
    (main.py:76-86, process_video.py:37-45) *)

Definition loudness_scores (audio : AudioSegment) : list Score :=
  let duration_seconds := int_of_float (duration_seconds audio) in
  (λ i, (slice_dBFS audio (i * 1000) ((i + 1) * 1000), i))
    <$> seqZ 0 duration_seconds.

(** All windows, ranked. *)
Definition ranked (audio : AudioSegment) : list Score :=
  sorted_reverse tuple_lt (loudness_scores audio).

(** [sorted(loudness_scores, reverse=True)[:5]]: the PeakList. *)
Definition top_peaks (audio : AudioSegment) : list Score :=
  take 5 (ranked audio).

(** What the function returns once the file is decoded. *)
Definition audio_peaks (audio : AudioSegment) : list string :=
  (λ p : Score, format_time p.2) <$> top_peaks audio.

(** ** The world outside the repository

    A file is its bytes.  The decoders and services are functions of those
    bytes (or of the URL); each either answers or raises.  A collaborator that
    raises is taken to have written nothing under the name it was given. *)
Definition bytes : Type := list Byte.byte.

(** What moviepy's [VideoFileClip] object offers to the code: [clip.audio]
    ([None] without an audio track; otherwise what [write_audiofile] writes,
    or how it fails) and [clip.save_frame(_, t)]. *)
Record Clip : Type := {
  clip_audio : option (result bytes);
  clip_save_frame : Z → result bytes
}.

Record World : Type := {
  (** [str(uuid.uuid4())] of the k-th draw of the process *)
  uuid4 : nat → string;
  (** [datetime.utcnow().isoformat()] *)
  utcnow_isoformat : string;
  (** yt-dlp: format selector and URL to the downloaded container *)
  ydl_download : string → string → result bytes;
  (** moviepy: opening a container *)
  VideoFileClip_open : bytes → result Clip;
  (** [ffmpeg -i <in> -q:a 0 -map a <out> -y], with [check=True] *)
  ffmpeg_map_audio : bytes → result bytes;
  (** pydub: [AudioSegment.from_file] *)
  AudioSegment_from_file : bytes → result AudioSegment;
  (** [openai.Audio.transcribe("whisper-1", f)["text"]] *)
  whisper_transcribe : bytes → result string
}.

(** Ghost trace of the calls the claims speak about. *)
Inductive Call : Type :=
  | CallExtractFrame (video_path time_str output_path : string)
  | CallSaveFrame (output_path : string) (t : Z)
  | CallRemove (path : string).

Record State : Type := {
  fs : gmap string bytes;
  calls : list Call;
  log : list string;
  uuid_draws : nat
}.

(** ** State and exceptions *)

Definition M (A : Type) : Type := State → result A * State.

Definition ret {A} (a : A) : M A := λ st, (Ok a, st).

Definition raise {A} (e : Exception) : M A := λ st, (Raise e, st).

Definition bind {A B} (m : M A) (k : A → M B) : M B :=
  λ st, match m st with
        | (Ok a, st') => k a st'
        | (Raise e, st') => (Raise e, st')
        end.

(** [try: m except Exception as e: handler(e)]; what [m] did to the state
    before raising stays done. *)
Definition try_except {A} (m : M A) (handler : Exception → M A) : M A :=
  λ st, match m st with
        | (Ok a, st') => (Ok a, st')
        | (Raise e, st') => handler e st'
        end.

Notation "'let*' x ':=' m 'in' k" := (bind m (λ x, k))
  (at level 10, x name, m at level 100, k at level 200).

Definition lift {A} (r : result A) : M A :=
  λ st, (r, st).

(** [for x in xs: body(x)] *)
Fixpoint for_each {A} (xs : list A) (body : A → M unit) : M unit :=
  match xs with
  | [] => ret tt
  | x :: xs' => let* _ := body x in for_each xs' body
  end.

(** State updates of the primitives. *)
Definition update_fs (f : gmap string bytes → gmap string bytes) (st : State) : State :=
  {| fs := f (fs st); calls := calls st; log := log st; uuid_draws := uuid_draws st |}.

Definition add_call (c : Call) (st : State) : State :=
  {| fs := fs st; calls := calls st ++ [c]; log := log st; uuid_draws := uuid_draws st |}.

Definition add_log (msg : string) (st : State) : State :=
  {| fs := fs st; calls := calls st; log := log st ++ [msg]; uuid_draws := uuid_draws st |}.

Definition next_draw (st : State) : State :=
  {| fs := fs st; calls := calls st; log := log st; uuid_draws := S (uuid_draws st) |}.

Definition record_call (c : Call) : M unit :=
  λ st, (Ok tt, add_call c st).

Definition logger_error (msg : string) : M unit :=
  λ st, (Ok tt, add_log msg st).

Definition no_such_file (path : string) : Exception :=
  PyError ("[Errno 2] No such file or directory: " +:+ py_repr path).

Definition write_file (path : string) (content : bytes) : M unit :=
  λ st, (Ok tt, update_fs (insert path content) st).

(** [open(path, "rb")] and reading it *)
Definition read_file (path : string) : M bytes :=
  λ st, match fs st !! path with
        | Some content => (Ok content, st)
        | None => (Raise (no_such_file path), st)
        end.

Definition os_path_exists (path : string) : M bool :=
  λ st, (Ok (bool_decide (is_Some (fs st !! path))), st).

Definition os_remove (path : string) : M unit :=
  let* _ := record_call (CallRemove path) in
  λ st, match fs st !! path with
        | Some _ => (Ok tt, update_fs (delete path) st)
        | None => (Raise (no_such_file path), st)
        end.

(** [peaks[0]] *)
Definition index0 {A} (l : list A) : M A :=
  match l with
  | x :: _ => ret x
  | [] => raise (PyError "list index out of range")
  end.

(** [os.path.basename]: what follows the last slash. *)
Fixpoint basename (path : string) : string :=
  match path with
  | EmptyString => EmptyString
  | String c rest =>
      if existsb (Ascii.eqb "/") (list_ascii_of_string rest) then basename rest
      else if Ascii.eqb c "/" then rest else path
  end.

Section Collaborators.
Context (w : World).

Definition uuid_uuid4 : M string :=
  λ st, (Ok (uuid4 w (uuid_draws st)), next_draw st).

(** [with yt_dlp.YoutubeDL(opts) as ydl: ydl.download([url])] with
    [outtmpl = filename] *)
Definition YoutubeDL_download (format url filename : string) : M unit :=
  let* content := lift (ydl_download w format url) in
  write_file filename content.

Definition VideoFileClip (path : string) : M Clip :=
  λ st, match fs st !! path with
        | Some content => (VideoFileClip_open w content, st)
        | None => (Raise (PyError ("MoviePy error: the file " +:+ path
                                     +:+ " could not be found!")), st)
        end.

(** [video.audio.write_audiofile(audio_file)] *)
Definition audio_write_audiofile (video : Clip) (audio_file : string) : M unit :=
  match clip_audio video with
  | None => raise (PyError "'NoneType' object has no attribute 'write_audiofile'")
  | Some written =>
      let* content := lift written in
      write_file audio_file content
  end.

Definition save_frame (clip : Clip) (output_path : string) (t : Z) : M unit :=
  let* _ := record_call (CallSaveFrame output_path t) in
  let* content := lift (clip_save_frame clip t) in
  write_file output_path content.

(** [subprocess.run(["ffmpeg", "-i", video_file, "-q:a", "0", "-map", "a",
    audio_file, "-y"], check=True)] *)
Definition run_ffmpeg (video_file audio_file : string) : M unit :=
  λ st, match fs st !! video_file with
        | Some content =>
            (let* audio := lift (ffmpeg_map_audio w content) in
             write_file audio_file audio) st
        | None => (Raise (PyError "Command 'ffmpeg' returned non-zero exit status 1."), st)
        end.

Definition AudioSegment_open (audio_path : string) : M AudioSegment :=
  let* content := read_file audio_path in
  lift (AudioSegment_from_file w content).

Definition openai_transcribe (audio_path : string) : M string :=
  let* f := read_file audio_path in
  lift (whisper_transcribe w f).

Definition datetime_utcnow_isoformat : M string :=
  ret (utcnow_isoformat w).
End Collaborators.

Definition watch_url (video_id : string) : string :=
  "https://www.youtube.com/watch?v=" +:+ video_id.

(** ** [src/api/main.py] *)
Module Main.

Record VideoRequest : Type := {
  videoId : string;
  apiKey : option string
}.

Record VideoResponse : Type := {
  r_videoId : string;
  r_title : string;
  r_transcription : string;
  r_wave_peaks : list string;
  r_frame_url : string;
  r_timestamp : string;
  r_status : string
}.

(** [ydl_opts["format"]] *)
Definition ydl_format : string :=
  "bestvideo[ext=mp4]+bestaudio[ext=m4a]/best[ext=mp4]/best".

Section WithWorld.
Context (w : World).

(** main.py:56-71 *)
Definition download_video (video_id filename : string) : M string :=
  try_except
    (let url := watch_url video_id in
     let* _ := YoutubeDL_download w ydl_format url filename in
     ret filename)
    (λ e,
     let* _ := logger_error ("Error downloading video: " +:+ str_exc e) in
     raise (HTTPException 500 ("Error downloading video: " +:+ str_exc e))).

(** main.py:73-89 *)
Definition extract_audio_peaks (audio_path : string) : M (list string) :=
  try_except
    (let* audio := AudioSegment_open w audio_path in
     ret (audio_peaks audio))
    (λ e,
     let* _ := logger_error ("Error extracting audio peaks: " +:+ str_exc e) in
     raise (HTTPException 500 ("Error extracting audio peaks: " +:+ str_exc e))).

(** main.py:98-108 *)
Definition extract_frame (video_path time_str output_path : string) : M string :=
  let* _ := record_call (CallExtractFrame video_path time_str output_path) in
  try_except
    (let* clip := VideoFileClip w video_path in
     let* frame_time := lift (parse_time time_str) in
     let* _ := save_frame clip output_path frame_time in
     ret output_path)
    (λ e,
     let* _ := logger_error ("Error extracting frame: " +:+ str_exc e) in
     raise (HTTPException 500 ("Error extracting frame: " +:+ str_exc e))).

(** main.py:110-118 *)
Definition transcribe_audio (audio_path : string) : M string :=
  try_except
    (openai_transcribe w audio_path)
    (λ e,
     let* _ := logger_error ("Error transcribing audio: " +:+ str_exc e) in
     raise (HTTPException 500 ("Error transcribing audio: " +:+ str_exc e))).

(** The three names of a run (main.py:126-128). *)
Definition temp_name (token ext : string) : string :=
  "temp_" +:+ token +:+ ext.

(** main.py:122-167.  A raised [HTTPException] is what the caller gets
    as the HTTP error [status_code] with [detail]. *)
Definition process_video (data : VideoRequest) : M VideoResponse :=
  try_except
    (let* u1 := uuid_uuid4 w in
     let video_file := temp_name u1 ".mp4" in
     let* u2 := uuid_uuid4 w in
     let audio_file := temp_name u2 ".mp3" in
     let* u3 := uuid_uuid4 w in
     let frame_file := temp_name u3 ".jpg" in
     let* _ := download_video (videoId data) video_file in
     let* video := VideoFileClip w video_file in
     let* _ := audio_write_audiofile video audio_file in
     let* peaks := extract_audio_peaks audio_file in
     let* transcription := transcribe_audio audio_file in
     let* frame_time := index0 peaks in
     let* _ := extract_frame video_file frame_time frame_file in
     let* _ := for_each [video_file; audio_file] (λ file,
                 let* present := os_path_exists file in
                 if present then os_remove file else ret tt) in
     let* now := datetime_utcnow_isoformat w in
     ret {| r_videoId := videoId data;
            r_title := watch_url (videoId data);
            r_transcription := transcription;
            r_wave_peaks := peaks;
            r_frame_url := "/frames/" +:+ basename frame_file;
            r_timestamp := now;
            r_status := "success" |})
    (λ e,
     let* _ := logger_error ("Error processing video: " +:+ str_exc e) in
     raise (HTTPException 500 (str_exc e))).
End WithWorld.
End Main.

(** ** [src/api/process_video.py] *)
Module ProcessVideo.

Record VideoRequest : Type := {
  videoId : string
}.

(** The endpoint answers a dict: the result, or [{"error": str(e)}]. *)
Inductive Reply : Type :=
  | Result (title transcription : string) (wave_peaks : list string)
           (frame_url : string)
  | Error (error : string).

(** [ydl_opts["format"]] *)
Definition ydl_format : string := "bestvideo+bestaudio".

Section WithWorld.
Context (w : World).

(** process_video.py:24-33 *)
Definition download_video (video_id filename : string) : M string :=
  let url := watch_url video_id in
  let* _ := YoutubeDL_download w ydl_format url filename in
  ret filename.

(** process_video.py:36-45 *)
Definition extract_audio_peaks (audio_path : string) : M (list string) :=
  let* audio := AudioSegment_open w audio_path in
  ret (audio_peaks audio).

(** process_video.py:54-59 *)
Definition extract_frame (video_path time_str output_path : string) : M string :=
  let* _ := record_call (CallExtractFrame video_path time_str output_path) in
  let* clip := VideoFileClip w video_path in
  let* frame_time := lift (parse_time time_str) in
  let* _ := save_frame clip output_path frame_time in
  ret output_path.

(** process_video.py:62-65 *)
Definition transcribe_audio (audio_path : string) : M string :=
  openai_transcribe w audio_path.

(** process_video.py:69-107 *)
Definition process_video (data : VideoRequest) : M Reply :=
  let video_id := videoId data in
  let* u := uuid_uuid4 w in
  let video_file := u +:+ ".mp4" in
  let audio_file := "temp.mp3"%string in
  let frame_file := "frame.jpg"%string in
  try_except
    (let* _ := download_video video_id video_file in
     let* _ := run_ffmpeg w video_file audio_file in
     let* peaks := extract_audio_peaks audio_file in
     let* transcription := transcribe_audio audio_file in
     let* frame_time := index0 peaks in
     let* _ := extract_frame video_file frame_time frame_file in
     let frame_url := ("https://your-cdn.com/temp/" +:+ frame_file)%string in
     let* _ := os_remove video_file in
     let* _ := os_remove audio_file in
     ret (Result (watch_url video_id) transcription peaks frame_url))
    (λ e, ret (Error (str_exc e))).
End WithWorld.
End ProcessVideo.

(** The state a request finds: the scratch directory as it is, nothing
    traced or logged yet. *)
Definition initial (files : gmap string bytes) (draws : nat) : State :=
  {| fs := files; calls := []; log := []; uuid_draws := draws |}.

(** * Vocabulary of the statements *)

(** ** Digit strings *)

Definition digit (c : ascii) : Prop := ∃ d, 0 ≤ d ≤ 9 ∧ c = digit_char d.

(** A non-empty string of digits that reads as [n], whatever follows and
    whatever was read before. *)
Definition reads_as (ds : string) (n : Z) : Prop :=
  ds ≠ EmptyString
  ∧ Forall digit (list_ascii_of_string ds)
  ∧ ∀ rest a b,
      parse_digits (list_ascii_of_string ds ++ rest) a b
      = parse_digits rest (a * 10 ^ Z.of_nat (String.length ds) + n) true.

(** The two characters of a field below 100. *)
Definition two_digits (n : Z) : string :=
  String (digit_char (n / 10)) (String (digit_char (n mod 10)) EmptyString).

(** The last character of a name: its extension decides it. *)
Fixpoint last_ascii (s : string) : option ascii :=
  match s with
  | EmptyString => None
  | String c EmptyString => Some c
  | String _ rest => last_ascii rest
  end.


(** ** The calls of a run *)

Definition is_remove (c : Call) : bool :=
  match c with
  | CallRemove _ => true
  | _ => false
  end.

(** The offsets the frame extractor was asked for, one per invocation of
    [extract_frame]: its [time_str], parsed the way [extract_frame] does. *)
Definition frame_extractor_offsets (cs : list Call) : list (result Z) :=
  omap (λ c, match c with
             | CallExtractFrame _ time_str _ => Some (parse_time time_str)
             | _ => None
             end) cs.

(** The offsets that reached [clip.save_frame]. *)
Definition save_frame_offsets (cs : list Call) : list Z :=
  omap (λ c, match c with
             | CallSaveFrame _ t => Some t
             | _ => None
             end) cs.

(** ** The runs of [main.py]'s endpoint

    The three names of the run that starts at the [draws]-th uuid, and every
    way the run can go: what the collaborators answered, the files left, the
    calls made, what the caller gets. *)
Module MainRun.
Section Run.
Context (w : World) (data : Main.VideoRequest)
        (files : gmap string bytes) (draws : nat).

Definition video_file : string := Main.temp_name (uuid4 w draws) ".mp4".
Definition audio_file : string := Main.temp_name (uuid4 w (S draws)) ".mp3".
Definition frame_file : string := Main.temp_name (uuid4 w (S (S draws))) ".jpg".

Definition downloaded : result bytes :=
  ydl_download w Main.ydl_format (watch_url (Main.videoId data)).

Definition with_video (video : bytes) : gmap string bytes :=
  <[video_file := video]> files.

Definition with_audio (video audio : bytes) : gmap string bytes :=
  <[audio_file := audio]> (with_video video).

Definition frame_calls (index : Z) : list Call :=
  [CallExtractFrame video_file (format_time index) frame_file;
   CallSaveFrame frame_file index].

(** What a helper of [main.py] raises when its body raised [e], and what the
    endpoint raises when its body raised [e]. *)
Definition wrapped (prefix : string) (e : Exception) : Exception :=
  HTTPException 500 (prefix +:+ str_exc e).

Definition reported (e : Exception) : result Main.VideoResponse :=
  Raise (HTTPException 500 (str_exc e)).

Inductive outcome : result Main.VideoResponse → State → Prop :=
  | download_failed e st :
      downloaded = Raise e →
      fs st = files → calls st = [] →
      outcome (reported (wrapped "Error downloading video: " e)) st
  | open_failed video e st :
      downloaded = Ok video →
      VideoFileClip_open w video = Raise e →
      fs st = with_video video → calls st = [] →
      outcome (reported e) st
  | no_audio_track video clip st :
      downloaded = Ok video →
      VideoFileClip_open w video = Ok clip →
      clip_audio clip = None →
      fs st = with_video video → calls st = [] →
      outcome (reported (PyError "'NoneType' object has no attribute 'write_audiofile'")) st
  | write_audio_failed video clip e st :
      downloaded = Ok video →
      VideoFileClip_open w video = Ok clip →
      clip_audio clip = Some (Raise e) →
      fs st = with_video video → calls st = [] →
      outcome (reported e) st
  | analysis_failed video clip audio e st :
      downloaded = Ok video →
      VideoFileClip_open w video = Ok clip →
      clip_audio clip = Some (Ok audio) →
      AudioSegment_from_file w audio = Raise e →
      fs st = with_audio video audio → calls st = [] →
      outcome (reported (wrapped "Error extracting audio peaks: " e)) st
  | transcription_failed video clip audio segment e st :
      downloaded = Ok video →
      VideoFileClip_open w video = Ok clip →
      clip_audio clip = Some (Ok audio) →
      AudioSegment_from_file w audio = Ok segment →
      whisper_transcribe w audio = Raise e →
      fs st = with_audio video audio → calls st = [] →
      outcome (reported (wrapped "Error transcribing audio: " e)) st
  | no_peak video clip audio segment text st :
      downloaded = Ok video →
      VideoFileClip_open w video = Ok clip →
      clip_audio clip = Some (Ok audio) →
      AudioSegment_from_file w audio = Ok segment →
      whisper_transcribe w audio = Ok text →
      top_peaks segment = [] →
      fs st = with_audio video audio → calls st = [] →
      outcome (reported (PyError "list index out of range")) st
  | frame_failed video clip audio segment text peak rest e st :
      downloaded = Ok video →
      VideoFileClip_open w video = Ok clip →
      clip_audio clip = Some (Ok audio) →
      AudioSegment_from_file w audio = Ok segment →
      whisper_transcribe w audio = Ok text →
      top_peaks segment = peak :: rest →
      clip_save_frame clip peak.2 = Raise e →
      fs st = with_audio video audio →
      calls st = frame_calls peak.2 →
      outcome (reported (wrapped "Error extracting frame: " e)) st
  | completed video clip audio segment text peak rest frame st :
      downloaded = Ok video →
      VideoFileClip_open w video = Ok clip →
      clip_audio clip = Some (Ok audio) →
      AudioSegment_from_file w audio = Ok segment →
      whisper_transcribe w audio = Ok text →
      top_peaks segment = peak :: rest →
      clip_save_frame clip peak.2 = Ok frame →
      fs st = delete audio_file (delete video_file
                (<[frame_file := frame]> (with_audio video audio))) →
      calls st = frame_calls peak.2
                   ++ [CallRemove video_file; CallRemove audio_file] →
      outcome (Ok {| Main.r_videoId := Main.videoId data;
                     Main.r_title := watch_url (Main.videoId data);
                     Main.r_transcription := text;
                     Main.r_wave_peaks := audio_peaks segment;
                     Main.r_frame_url := "/frames/" +:+ basename frame_file;
                     Main.r_timestamp := utcnow_isoformat w;
                     Main.r_status := "success" |}) st.
End Run.
End MainRun.

(** ** The runs of [process_video.py]'s endpoint

    Only the video name is drawn; the audio and the frame names are fixed. *)
Module PVRun.
Section Run.
Context (w : World) (data : ProcessVideo.VideoRequest)
        (files : gmap string bytes) (draws : nat).

Definition video_file : string := uuid4 w draws +:+ ".mp4".
Definition audio_file : string := "temp.mp3".
Definition frame_file : string := "frame.jpg".

Definition downloaded : result bytes :=
  ydl_download w ProcessVideo.ydl_format (watch_url (ProcessVideo.videoId data)).

Definition with_video (video : bytes) : gmap string bytes :=
  <[video_file := video]> files.

Definition with_audio (video audio : bytes) : gmap string bytes :=
  <[audio_file := audio]> (with_video video).

Definition frame_calls (index : Z) : list Call :=
  [CallExtractFrame video_file (format_time index) frame_file;
   CallSaveFrame frame_file index].

Inductive outcome : ProcessVideo.Reply → State → Prop :=
  | download_failed e st :
      downloaded = Raise e →
      fs st = files → calls st = [] →
      outcome (ProcessVideo.Error (str_exc e)) st
  | ffmpeg_failed video e st :
      downloaded = Ok video →
      ffmpeg_map_audio w video = Raise e →
      fs st = with_video video → calls st = [] →
      outcome (ProcessVideo.Error (str_exc e)) st
  | analysis_failed video audio e st :
      downloaded = Ok video →
      ffmpeg_map_audio w video = Ok audio →
      AudioSegment_from_file w audio = Raise e →
      fs st = with_audio video audio → calls st = [] →
      outcome (ProcessVideo.Error (str_exc e)) st
  | transcription_failed video audio segment e st :
      downloaded = Ok video →
      ffmpeg_map_audio w video = Ok audio →
      AudioSegment_from_file w audio = Ok segment →
      whisper_transcribe w audio = Raise e →
      fs st = with_audio video audio → calls st = [] →
      outcome (ProcessVideo.Error (str_exc e)) st
  | no_peak video audio segment text st :
      downloaded = Ok video →
      ffmpeg_map_audio w video = Ok audio →
      AudioSegment_from_file w audio = Ok segment →
      whisper_transcribe w audio = Ok text →
      top_peaks segment = [] →
      fs st = with_audio video audio → calls st = [] →
      outcome (ProcessVideo.Error "list index out of range") st
  | open_failed video audio segment text peak rest e st :
      downloaded = Ok video →
      ffmpeg_map_audio w video = Ok audio →
      AudioSegment_from_file w audio = Ok segment →
      whisper_transcribe w audio = Ok text →
      top_peaks segment = peak :: rest →
      VideoFileClip_open w video = Raise e →
      fs st = with_audio video audio →
      calls st = [CallExtractFrame video_file (format_time peak.2) frame_file] →
      outcome (ProcessVideo.Error (str_exc e)) st
  | frame_failed video audio segment text peak rest clip e st :
      downloaded = Ok video →
      ffmpeg_map_audio w video = Ok audio →
      AudioSegment_from_file w audio = Ok segment →
      whisper_transcribe w audio = Ok text →
      top_peaks segment = peak :: rest →
      VideoFileClip_open w video = Ok clip →
      clip_save_frame clip peak.2 = Raise e →
      fs st = with_audio video audio →
      calls st = frame_calls peak.2 →
      outcome (ProcessVideo.Error (str_exc e)) st
  | completed video audio segment text peak rest clip frame st :
      downloaded = Ok video →
      ffmpeg_map_audio w video = Ok audio →
      AudioSegment_from_file w audio = Ok segment →
      whisper_transcribe w audio = Ok text →
      top_peaks segment = peak :: rest →
      VideoFileClip_open w video = Ok clip →
      clip_save_frame clip peak.2 = Ok frame →
      fs st = delete audio_file (delete video_file
                (<[frame_file := frame]> (with_audio video audio))) →
      calls st = frame_calls peak.2
                   ++ [CallRemove video_file; CallRemove audio_file] →
      outcome (ProcessVideo.Result
                 (watch_url (ProcessVideo.videoId data)) text
                 (audio_peaks segment)
                 "https://your-cdn.com/temp/frame.jpg") st.
End Run.
End PVRun.

(** ** Concrete worlds

    Small worlds on which the statements are evaluated. *)
Module Scenario.

(** Three seconds at 44.1 kHz with per-second loudness -20, -5, -30. *)
Definition three_seconds : AudioSegment :=
  {| frame_count := 3 * 44100;
     frame_rate := 44100;
     slice_dBFS := λ a _, if a =? 0 then Fin (-20)
                          else if a =? 1000 then Fin (-5)
                          else Fin (-30) |}.

(** Seven seconds, the seconds 1 and 4 equally loud and the loudest. *)
Definition with_tie : AudioSegment :=
  {| frame_count := 7 * 8000;
     frame_rate := 8000;
     slice_dBFS := λ a _, if (a =? 1000) || (a =? 4000) then Fin (-3)
                          else Fin (-10 - a) |}.

(** No frame at all: duration 0. *)
Definition empty_audio : AudioSegment :=
  {| frame_count := 0; frame_rate := 44100; slice_dBFS := λ _ _, NegInf |}.

Definition video_bytes : bytes := [Byte.x01].
Definition audio_bytes : bytes := [Byte.x02].
Definition other_audio_bytes : bytes := [Byte.x04].
Definition frame_bytes : bytes := [Byte.x03].

Definition good_clip : Clip :=
  {| clip_audio := Some (Ok audio_bytes);
     clip_save_frame := λ _, Ok frame_bytes |}.

Definition mute_clip : Clip :=
  {| clip_audio := None;
     clip_save_frame := λ _, Ok frame_bytes |}.

(** Every collaborator answers. *)
Definition all_good : World :=
  {| uuid4 := λ k, "uuid-" +:+ decimal (Z.of_nat k);
     utcnow_isoformat := "2025-01-01T00:00:00";
     ydl_download := λ _ _, Ok video_bytes;
     VideoFileClip_open := λ _, Ok good_clip;
     ffmpeg_map_audio := λ _, Ok audio_bytes;
     AudioSegment_from_file := λ _, Ok three_seconds;
     whisper_transcribe := λ _, Ok "hello"%string |}.

(** The video has no audio track. *)
Definition no_audio : World :=
  {| uuid4 := uuid4 all_good;
     utcnow_isoformat := utcnow_isoformat all_good;
     ydl_download := ydl_download all_good;
     VideoFileClip_open := λ _, Ok mute_clip;
     ffmpeg_map_audio := λ _,
       Raise (PyError "Command 'ffmpeg' returned non-zero exit status 1.");
     AudioSegment_from_file := AudioSegment_from_file all_good;
     whisper_transcribe := whisper_transcribe all_good |}.

(** The speech-to-text service refuses. *)
Definition no_transcript : World :=
  {| uuid4 := uuid4 all_good;
     utcnow_isoformat := utcnow_isoformat all_good;
     ydl_download := ydl_download all_good;
     VideoFileClip_open := VideoFileClip_open all_good;
     ffmpeg_map_audio := ffmpeg_map_audio all_good;
     AudioSegment_from_file := AudioSegment_from_file all_good;
     whisper_transcribe := λ _, Raise (PyError "Rate limit reached") |}.

(** The audio track is empty. *)
Definition silent : World :=
  {| uuid4 := uuid4 all_good;
     utcnow_isoformat := utcnow_isoformat all_good;
     ydl_download := ydl_download all_good;
     VideoFileClip_open := VideoFileClip_open all_good;
     ffmpeg_map_audio := ffmpeg_map_audio all_good;
     AudioSegment_from_file := λ _, Ok empty_audio;
     whisper_transcribe := whisper_transcribe all_good |}.

(** Two videos with different audio tracks. *)
Definition two_videos : World :=
  {| uuid4 := uuid4 all_good;
     utcnow_isoformat := utcnow_isoformat all_good;
     ydl_download := λ _ url,
       if String.eqb url (watch_url "A") then Ok [Byte.x0a] else Ok [Byte.x0b];
     VideoFileClip_open := VideoFileClip_open all_good;
     ffmpeg_map_audio := λ video,
       match video with
       | [Byte.x0a] => Ok audio_bytes
       | _ => Ok other_audio_bytes
       end;
     AudioSegment_from_file := λ audio,
       match audio with
       | [Byte.x02] => Ok three_seconds
       | _ => Ok with_tie
       end;
     whisper_transcribe := whisper_transcribe all_good |}.

Definition main_request : Main.VideoRequest :=
  {| Main.videoId := "dQw4w9WgXcQ"; Main.apiKey := None |}.

Definition pv_request : ProcessVideo.VideoRequest :=
  {| ProcessVideo.videoId := "dQw4w9WgXcQ" |}.
End Scenario.

(** A scratch directory that holds one decoded-to-be audio file. *)
Definition audio_on_disk : State :=
  initial (<[ "clip.mp3"%string := Scenario.audio_bytes ]> ∅) 0.

(** The three artifact names a run of [main.py]'s endpoint uses
    (main.py:126-128). *)
Definition main_run_paths (w : World) (draws : nat) : list string :=
  [MainRun.video_file w draws; MainRun.audio_file w draws; MainRun.frame_file w draws].

(** A world in which the video cannot be downloaded. *)
Definition unreachable_video : World :=
  {| uuid4 := uuid4 Scenario.all_good;
     utcnow_isoformat := utcnow_isoformat Scenario.all_good;
     ydl_download := λ _ _, Raise (PyError "ERROR: Video unavailable");
     VideoFileClip_open := VideoFileClip_open Scenario.all_good;
     ffmpeg_map_audio := ffmpeg_map_audio Scenario.all_good;
     AudioSegment_from_file := AudioSegment_from_file Scenario.all_good;
     whisper_transcribe := whisper_transcribe Scenario.all_good |}.


(** The largest number of digits CPython converts by default. *)
Definition max_str_digits : Z := 4300.

(** * Properties *)

(** ** The order on scores *)

Lemma dBFS_eqb_eq a b : dBFS_eqb a b = true ↔ a = b.
Proof.
  destruct a as [|x], b as [|y]; simpl; split; try done.
  - intros H. apply Z.eqb_eq in H. by subst.
  - intros [= ->]. apply Z.eqb_refl.
Qed.

Lemma dBFS_ltb_irrefl a : dBFS_ltb a a = false.
Proof. destruct a; simpl; [done | apply Z.ltb_irrefl]. Qed.

Lemma tuple_lt_irrefl p : tuple_lt p p = false.
Proof.
  unfold tuple_lt. destruct (dBFS_eqb p.1 p.1).
  - apply Z.ltb_irrefl.
  - apply dBFS_ltb_irrefl.
Qed.

Ltac score_cases :=
  unfold tuple_lt, dBFS_geb; simpl;
  repeat match goal with
         | |- context [?x =? ?y] => destruct (Z.eqb_spec x y)
         | |- context [?x <? ?y] => destruct (Z.ltb_spec x y)
         end;
  intros; try done; try lia.

Lemma tuple_lt_asym p q : tuple_lt p q = true → tuple_lt q p = false.
Proof. destruct p as [[|x] i], q as [[|y] j]; score_cases. Qed.

(** Trichotomy: two scores neither of which is below the other are equal. *)
Lemma tuple_lt_total p q : tuple_lt p q = false → tuple_lt q p = false → p = q.
Proof.
  destruct p as [[|x] i], q as [[|y] j]; score_cases; f_equal; try f_equal; lia.
Qed.

Lemma tuple_ge_trans p q r :
  tuple_lt p q = false → tuple_lt q r = false → tuple_lt p r = false.
Proof. destruct p as [[|x] i], q as [[|y] j], r as [[|z] k]; score_cases. Qed.

(** A score that is not below another one is at least as loud. *)
Lemma tuple_ge_loudness p q : tuple_lt p q = false → dBFS_geb p.1 q.1 = true.
Proof. destruct p as [[|x] i], q as [[|y] j]; score_cases. Qed.

(** ** The stable descending sort *)
Section SortedFacts.
Context {A : Type} (lt : A → A → bool).
Hypothesis lt_asym : ∀ x y, lt x y = true → lt y x = false.
Hypothesis ge_trans : ∀ x y z, lt x y = false → lt y z = false → lt x z = false.

Let ge (x y : A) : Prop := lt x y = false.

Lemma insert_desc_Permutation x l : insert_desc lt x l ≡ₚ x :: l.
Proof.
  induction l as [|y l IH]; simpl; [done |].
  destruct (lt x y); [| done].
  rewrite IH. apply Permutation_swap.
Qed.

Lemma sorted_reverse_Permutation l : sorted_reverse lt l ≡ₚ l.
Proof.
  induction l as [|x l IH]; simpl; [done |].
  rewrite insert_desc_Permutation. by rewrite IH.
Qed.

Lemma sorted_reverse_length l : length (sorted_reverse lt l) = length l.
Proof. by rewrite sorted_reverse_Permutation. Qed.

Lemma insert_desc_sorted x l :
  StronglySorted ge l → StronglySorted ge (insert_desc lt x l).
Proof.
  induction 1 as [|y l Hl IH Hy]; simpl.
  - repeat constructor.
  - destruct (lt x y) eqn:Hxy.
    + constructor; [done |].
      rewrite insert_desc_Permutation. constructor; [| done].
      by apply lt_asym.
    + constructor; [by constructor |].
      constructor; [done |].
      eapply Forall_impl; [exact Hy |].
      intros z Hz. by apply (ge_trans x y z).
Qed.

Lemma sorted_reverse_sorted l : StronglySorted ge (sorted_reverse lt l).
Proof.
  induction l as [|x l IH]; simpl; [constructor |].
  by apply insert_desc_sorted.
Qed.
End SortedFacts.

Lemma StronglySorted_lookup_lt {A} (R : A → A → Prop) (l : list A) (a b : nat) x y :
  StronglySorted R l → (a < b)%nat → l !! a = Some x → l !! b = Some y → R x y.
Proof.
  intros Hs. revert a b. induction Hs as [|z l Hl IH Hz]; intros a b Hab Ha Hb.
  - done.
  - destruct a as [|a], b as [|b]; try lia; simpl in *.
    + injection Ha as ->. rewrite Forall_forall in Hz.
      apply Hz. by eapply list_elem_of_lookup_2.
    + apply (IH a b); [lia | done | done].
Qed.

Lemma StronglySorted_take {A} (R : A → A → Prop) (n : nat) (l : list A) :
  StronglySorted R l → StronglySorted R (take n l).
Proof.
  intros Hs. revert n. induction Hs as [|z l Hl IH Hz]; intros [|n]; simpl;
    try constructor; [apply IH |].
  by apply Forall_take.
Qed.

(** ** Durations *)

Lemma int_of_float_duration audio :
  int_of_float (duration_seconds audio)
  = Z.of_N (frame_count audio) / Zpos (frame_rate audio).
Proof.
  unfold int_of_float, duration_seconds. simpl.
  apply Z.quot_div_nonneg; lia.
Qed.

Lemma Qfloor_duration audio :
  Qfloor (duration_seconds audio)
  = Z.of_N (frame_count audio) / Zpos (frame_rate audio).
Proof. reflexivity. Qed.

Lemma int_of_float_floor audio :
  int_of_float (duration_seconds audio) = Qfloor (duration_seconds audio).
Proof. by rewrite int_of_float_duration, Qfloor_duration. Qed.

Lemma floor_duration_nonneg audio : 0 ≤ Qfloor (duration_seconds audio).
Proof. rewrite Qfloor_duration. apply Z.div_pos; lia. Qed.

(** ** The ranking *)

Lemma loudness_scores_length audio :
  length (loudness_scores audio) = Z.to_nat (Qfloor (duration_seconds audio)).
Proof.
  unfold loudness_scores. rewrite length_fmap, length_seqZ.
  by rewrite int_of_float_floor.
Qed.

Lemma loudness_scores_indices audio :
  (loudness_scores audio).*2 = seqZ 0 (Qfloor (duration_seconds audio)).
Proof.
  unfold loudness_scores. rewrite int_of_float_floor.
  rewrite <- list_fmap_compose. simpl.
  rewrite <- (list_fmap_id (seqZ 0 _)) at 2. by apply list_fmap_ext.
Qed.

Lemma elem_of_loudness_scores audio p :
  p ∈ loudness_scores audio ↔
  0 ≤ p.2 < Qfloor (duration_seconds audio)
  ∧ p.1 = slice_dBFS audio (p.2 * 1000) ((p.2 + 1) * 1000).
Proof.
  unfold loudness_scores. rewrite int_of_float_floor, list_elem_of_fmap.
  split.
  - intros (i & -> & Hi). apply elem_of_seqZ in Hi. cbn [fst snd].
    split; [lia | done].
  - intros [Hr Hl]. exists p.2. split.
    + destruct p as [l i]. cbn [fst snd] in *. by subst.
    + apply elem_of_seqZ. lia.
Qed.

Lemma ranked_Permutation audio : ranked audio ≡ₚ loudness_scores audio.
Proof. apply sorted_reverse_Permutation. Qed.

Lemma ranked_sorted audio :
  StronglySorted (λ p q, tuple_lt p q = false) (ranked audio).
Proof.
  apply sorted_reverse_sorted; [apply tuple_lt_asym | apply tuple_ge_trans].
Qed.

Lemma ranked_NoDup_indices audio : NoDup (ranked audio).*2.
Proof.
  rewrite ranked_Permutation, loudness_scores_indices. apply NoDup_seqZ.
Qed.

Lemma top_peaks_length audio :
  Z.of_nat (length (top_peaks audio)) = Z.min 5 (Qfloor (duration_seconds audio)).
Proof.
  unfold top_peaks, ranked.
  rewrite length_take, sorted_reverse_length, loudness_scores_length.
  pose proof (floor_duration_nonneg audio). lia.
Qed.

Lemma audio_peaks_length audio :
  Z.of_nat (length (audio_peaks audio)) = Z.min 5 (Qfloor (duration_seconds audio)).
Proof. unfold audio_peaks. rewrite length_fmap. apply top_peaks_length. Qed.

Lemma duration_below_one audio :
  Qlt (duration_seconds audio) 1 → Qfloor (duration_seconds audio) = 0.
Proof.
  intros H. rewrite Qfloor_duration.
  unfold Qlt, duration_seconds in H. simpl in H.
  apply Z.div_small. lia.
Qed.


(** ** Decimal digits *)

Ltac digit_cases d :=
  let H := fresh in
  assert (H : d = 0 ∨ d = 1 ∨ d = 2 ∨ d = 3 ∨ d = 4 ∨ d = 5 ∨ d = 6
              ∨ d = 7 ∨ d = 8 ∨ d = 9) by lia;
  repeat (destruct H as [-> | H]); try subst d.

Lemma digit_val_digit_char d : 0 ≤ d ≤ 9 → digit_val (digit_char d) = Some d.
Proof. intros Hd. digit_cases d; reflexivity. Qed.

Lemma digit_not_space c : digit c → is_space c = false.
Proof. intros (d & Hd & ->). digit_cases d; reflexivity. Qed.

Lemma digit_not_colon c : digit c → Ascii.eqb c ":" = false.
Proof. intros (d & Hd & ->). digit_cases d; reflexivity. Qed.

Lemma string_app_nil (s : string) : EmptyString +:+ s = s.
Proof. reflexivity. Qed.

Lemma string_app_cons c (s1 s2 : string) : String c s1 +:+ s2 = String c (s1 +:+ s2).
Proof. reflexivity. Qed.

Lemma list_ascii_of_string_app s1 s2 :
  list_ascii_of_string (s1 +:+ s2) = list_ascii_of_string s1 ++ list_ascii_of_string s2.
Proof.
  induction s1 as [|c s1 IH]; [done |].
  rewrite string_app_cons. simpl. by rewrite IH.
Qed.

Lemma string_app_assoc (s1 s2 s3 : string) : (s1 +:+ s2) +:+ s3 = s1 +:+ (s2 +:+ s3).
Proof.
  induction s1 as [|c s1 IH]; [done |].
  rewrite !string_app_cons. by rewrite IH.
Qed.

Lemma string_length_app (s1 s2 : string) :
  String.length (s1 +:+ s2) = (String.length s1 + String.length s2)%nat.
Proof.
  induction s1 as [|c s1 IH]; [done |].
  rewrite string_app_cons. simpl. by rewrite IH.
Qed.

Lemma reads_as_one_digit d : 0 ≤ d ≤ 9 → reads_as (String (digit_char d) EmptyString) d.
Proof.
  intros Hd. split; [done |]. split.
  - repeat constructor. by exists d.
  - intros rest a b. cbn [list_ascii_of_string app parse_digits String.length].
    rewrite digit_val_digit_char by done.
    f_equal. change (Z.of_nat 1) with 1. lia.
Qed.

Lemma reads_as_snoc ds n d :
  reads_as ds n → 0 ≤ d ≤ 9 →
  reads_as (ds +:+ String (digit_char d) EmptyString) (10 * n + d).
Proof.
  intros (Hne & Hds & Hparse) Hd. split; [| split].
  - destruct ds; [done | by rewrite string_app_cons].
  - rewrite list_ascii_of_string_app. apply Forall_app. split; [done |].
    repeat constructor. by exists d.
  - intros rest a b. rewrite list_ascii_of_string_app, <- app_assoc, Hparse.
    cbn [list_ascii_of_string app parse_digits].
    rewrite digit_val_digit_char by done.
    f_equal. rewrite string_length_app. cbn [String.length].
    rewrite Nat2Z.inj_add, Z.pow_add_r by lia. change (10 ^ Z.of_nat 1) with 10. lia.
Qed.

Lemma reads_as_zero_cons ds n : reads_as ds n → reads_as (String "0" ds) n.
Proof.
  intros (Hne & Hds & Hparse). split; [done |]. split.
  - simpl. constructor; [| done]. by exists 0.
  - intros rest a b. cbn [list_ascii_of_string app parse_digits].
    change (digit_val "0") with (Some 0). cbn match.
    rewrite Hparse. f_equal. cbn [String.length].
    rewrite Nat2Z.inj_succ, Z.pow_succ_r by lia. lia.
Qed.

Lemma digits_from_S fuel n acc :
  digits_from (S fuel) n acc
  = if n / 10 =? 0 then String (digit_char (n mod 10)) acc
    else digits_from fuel (n / 10) (String (digit_char (n mod 10)) acc).
Proof. reflexivity. Qed.

Lemma digits_from_reads_as fuel n :
  0 ≤ n < 2 ^ Z.of_nat (S fuel) →
  ∃ ds, reads_as ds n ∧ ∀ acc, digits_from (S fuel) n acc = ds +:+ acc.
Proof.
  revert n. induction fuel as [|fuel IH]; intros n Hn.
  - change (2 ^ Z.of_nat 1) with 2 in Hn.
    assert (n / 10 = 0) as Hq by (apply Z.div_small; lia).
    assert (n mod 10 = n) as Hr by (apply Z.mod_small; lia).
    exists (String (digit_char n) EmptyString). split.
    + apply reads_as_one_digit. lia.
    + intros acc. rewrite digits_from_S, Hq, Hr. reflexivity.
  - pose proof (Z.mod_pos_bound n 10 ltac:(lia)) as Hmod.
    pose proof (Z.div_mod n 10 ltac:(lia)) as Hdm.
    destruct (Z.eq_dec (n / 10) 0) as [Hq | Hq].
    + assert (n mod 10 = n) as Hr by lia.
      exists (String (digit_char n) EmptyString). split.
      * apply reads_as_one_digit. lia.
      * intros acc. rewrite digits_from_S, Hq, Hr. reflexivity.
    + destruct (IH (n / 10)) as (ds & Hds & Heq).
      { split; [apply Z.div_pos; lia |].
        rewrite (Nat2Z.inj_succ (S fuel)), Z.pow_succ_r in Hn by lia.
        apply Z.div_lt_upper_bound; lia. }
      exists (ds +:+ String (digit_char (n mod 10)) EmptyString). split.
      * rewrite Hdm at 2. apply reads_as_snoc; [done | lia].
      * intros acc. rewrite (digits_from_S (S fuel)).
        destruct (Z.eqb_spec (n / 10) 0); [done |].
        rewrite Heq, string_app_assoc. reflexivity.
Qed.

Lemma decimal_reads_as n : 0 ≤ n → reads_as (decimal n) n.
Proof.
  intros Hn. unfold decimal.
  destruct (digits_from_reads_as (Z.to_nat (Z.log2_up (n + 1))) n) as (ds & Hds & Heq).
  - split; [done |].
    rewrite Nat2Z.inj_succ, Z2Nat.id by apply Z.log2_up_nonneg.
    rewrite Z.pow_succ_r by apply Z.log2_up_nonneg.
    destruct (Z.eq_dec n 0) as [-> | Hne]; [done |].
    pose proof (Z.log2_up_spec (n + 1) ltac:(lia)) as [_ Hup].
    pose proof (Z.pow_pos_nonneg 2 (Z.log2_up (n + 1)) ltac:(lia) (Z.log2_up_nonneg _)).
    lia.
  - rewrite Heq. replace (ds +:+ EmptyString) with ds; [done |].
    clear. induction ds as [|c ds IH]; [done |]. rewrite string_app_cons. by f_equal.
Qed.

Lemma fmt_02d_reads_as n : 0 ≤ n → reads_as (fmt_02d n) n.
Proof.
  intros Hn. unfold fmt_02d.
  destruct (Z.ltb_spec n 0); [lia |].
  pose proof (decimal_reads_as n Hn).
  destruct (String.length (decimal n) <? 2)%nat; [by apply reads_as_zero_cons | done].
Qed.

(** ** [int] and [split] on digit strings *)

Lemma lstrip_digits l : Forall digit l → lstrip l = l.
Proof. intros [|c l' Hc _]; [done |]. simpl. by rewrite digit_not_space. Qed.

Lemma strip_digits l : Forall digit l → strip l = l.
Proof.
  intros Hl. unfold strip. rewrite (lstrip_digits l) by done.
  rewrite lstrip_digits by (by apply Forall_rev).
  apply rev_involutive.
Qed.

Lemma int_of_str_reads_as ds n : reads_as ds n → int_of_str ds = Ok n.
Proof.
  intros (Hne & Hds & Hparse). unfold int_of_str.
  rewrite strip_digits by done.
  specialize (Hparse [] 0 false). rewrite app_nil_r in Hparse. simpl in Hparse.
  destruct (list_ascii_of_string ds) as [|c l] eqn:El.
  { destruct ds; [done | discriminate]. }
  apply Forall_cons in Hds as [(d & Hd & ->) _].
  digit_cases d; cbv zeta; cbv iota; cbv beta; simpl digit_char; cbv iota;
    by rewrite Hparse.
Qed.

Lemma split_colon_digits ds :
  Forall digit (list_ascii_of_string ds) → split_colon ds = [ds].
Proof.
  induction ds as [|c ds IH]; [done |].
  simpl. intros [Hc Hds]%Forall_cons.
  by rewrite digit_not_colon, IH.
Qed.

Lemma split_colon_digits_colon ds rest :
  Forall digit (list_ascii_of_string ds) →
  split_colon (ds +:+ String ":" rest) = ds :: split_colon rest.
Proof.
  induction ds as [|c ds IH]; [done |].
  rewrite string_app_cons. simpl. intros [Hc Hds]%Forall_cons.
  by rewrite digit_not_colon, IH.
Qed.

(** ** [format_time] and its inverse *)

Lemma format_time_fields seconds :
  format_time seconds
  = fmt_02d (seconds / 3600)
      +:+ String ":" (fmt_02d (seconds mod 3600 / 60)
      +:+ String ":" (fmt_02d (seconds mod 60))).
Proof. reflexivity. Qed.

Lemma time_fields_bounds seconds :
  0 ≤ seconds →
  0 ≤ seconds / 3600
  ∧ 0 ≤ seconds mod 3600 / 60 ≤ 59
  ∧ 0 ≤ seconds mod 60 ≤ 59
  ∧ seconds / 3600 * 3600 + seconds mod 3600 / 60 * 60 + seconds mod 60 = seconds.
Proof. intros H. repeat split; Z.to_euclidean_division_equations; lia. Qed.

Lemma split_colon_format_time seconds :
  0 ≤ seconds →
  split_colon (format_time seconds)
  = [fmt_02d (seconds / 3600); fmt_02d (seconds mod 3600 / 60); fmt_02d (seconds mod 60)].
Proof.
  intros H. destruct (time_fields_bounds seconds H) as (Hh & Hm & Hs & _).
  rewrite format_time_fields.
  rewrite split_colon_digits_colon by apply fmt_02d_reads_as, Hh.
  rewrite split_colon_digits_colon by (apply fmt_02d_reads_as; lia).
  rewrite split_colon_digits by (apply fmt_02d_reads_as; lia).
  done.
Qed.

(** Rendering a window index and parsing it back gives the index. *)
Lemma parse_time_format_time seconds :
  0 ≤ seconds → parse_time (format_time seconds) = Ok seconds.
Proof.
  intros H. destruct (time_fields_bounds seconds H) as (Hh & Hm & Hs & Hsum).
  unfold parse_time. rewrite split_colon_format_time by done.
  rewrite (int_of_str_reads_as _ _ (fmt_02d_reads_as _ Hh)).
  rewrite (int_of_str_reads_as _ (seconds mod 3600 / 60)) by (apply fmt_02d_reads_as; lia).
  rewrite (int_of_str_reads_as _ (seconds mod 60)) by (apply fmt_02d_reads_as; lia).
  simpl. by rewrite Hsum.
Qed.

Lemma fmt_02d_two_digits n : 0 ≤ n < 100 → fmt_02d n = two_digits n.
Proof.
  intros Hn.
  assert (forallb (λ k, bool_decide (fmt_02d k = two_digits k)) (seqZ 0 100) = true)
    as Hall by (vm_compute; reflexivity).
  rewrite forallb_forall in Hall.
  specialize (Hall n). rewrite bool_decide_eq_true in Hall.
  apply Hall, list_elem_of_In, elem_of_seqZ. lia.
Qed.

(** ** Stepping through the monad *)

Lemma bind_Ok {A B} (m : M A) (k : A → M B) st a st1 :
  m st = (Ok a, st1) → bind m k st = k a st1.
Proof. unfold bind. by intros ->. Qed.

Lemma bind_Raise {A B} (m : M A) (k : A → M B) st e st1 :
  m st = (Raise e, st1) → bind m k st = (Raise e, st1).
Proof. unfold bind. by intros ->. Qed.

Lemma try_except_Ok {A} (m : M A) handler st a st1 :
  m st = (Ok a, st1) → try_except m handler st = (Ok a, st1).
Proof. unfold try_except. by intros ->. Qed.

Lemma try_except_Raise {A} (m : M A) handler st e st1 :
  m st = (Raise e, st1) → try_except m handler st = handler e st1.
Proof. unfold try_except. by intros ->. Qed.

(** ** File names *)

Lemma last_ascii_app s ext :
  ext ≠ EmptyString → last_ascii (s +:+ ext) = last_ascii ext.
Proof.
  intros Hext. induction s as [|c s IH]; [done |].
  rewrite string_app_cons. simpl. rewrite IH.
  destruct (s +:+ ext) eqn:E; [| done].
  destruct s; [done | by rewrite string_app_cons in E].
Qed.

Lemma last_ascii_temp_name token ext :
  ext ≠ EmptyString → last_ascii (Main.temp_name token ext) = last_ascii ext.
Proof.
  intros Hext. unfold Main.temp_name.
  rewrite !last_ascii_app; [done | done |].
  destruct token; [done | by rewrite string_app_cons].
Qed.

Lemma names_differ (s1 s2 : string) : last_ascii s1 ≠ last_ascii s2 → s1 ≠ s2.
Proof. congruence. Qed.

Ltac names :=
  apply names_differ;
  rewrite ?last_ascii_temp_name, ?last_ascii_app by done; done.

Lemma main_video_audio u1 u2 : Main.temp_name u1 ".mp4" ≠ Main.temp_name u2 ".mp3".
Proof. names. Qed.

Lemma main_video_frame u1 u3 : Main.temp_name u1 ".mp4" ≠ Main.temp_name u3 ".jpg".
Proof. names. Qed.

Lemma main_audio_frame u2 u3 : Main.temp_name u2 ".mp3" ≠ Main.temp_name u3 ".jpg".
Proof. names. Qed.

Lemma pv_video_audio u : u +:+ ".mp4" ≠ "temp.mp3"%string.
Proof. names. Qed.

Lemma pv_video_frame u : u +:+ ".mp4" ≠ "frame.jpg"%string.
Proof. names. Qed.

(** ** The steps shared by the two modules *)
Section Steps.
Context (w : World).

Lemma YoutubeDL_download_Ok format url filename st content :
  ydl_download w format url = Ok content →
  YoutubeDL_download w format url filename st
  = (Ok tt, update_fs (insert filename content) st).
Proof. unfold YoutubeDL_download, bind, lift, write_file. by intros ->. Qed.

Lemma YoutubeDL_download_Raise format url filename st e :
  ydl_download w format url = Raise e →
  YoutubeDL_download w format url filename st = (Raise e, st).
Proof. unfold YoutubeDL_download, bind, lift. by intros ->. Qed.

Lemma VideoFileClip_found path st content :
  fs st !! path = Some content →
  VideoFileClip w path st = (VideoFileClip_open w content, st).
Proof. unfold VideoFileClip. by intros ->. Qed.

Lemma VideoFileClip_found_Ok path st content clip :
  fs st !! path = Some content →
  VideoFileClip_open w content = Ok clip →
  VideoFileClip w path st = (Ok clip, st).
Proof. intros Hf Ho. by rewrite (VideoFileClip_found _ _ _ Hf), Ho. Qed.

Lemma VideoFileClip_found_Raise path st content e :
  fs st !! path = Some content →
  VideoFileClip_open w content = Raise e →
  VideoFileClip w path st = (Raise e, st).
Proof. intros Hf Ho. by rewrite (VideoFileClip_found _ _ _ Hf), Ho. Qed.

Lemma AudioSegment_open_found path st content :
  fs st !! path = Some content →
  AudioSegment_open w path st = (AudioSegment_from_file w content, st).
Proof. unfold AudioSegment_open, bind, read_file, lift. intros ->. by destruct AudioSegment_from_file. Qed.

Lemma openai_transcribe_found path st content :
  fs st !! path = Some content →
  openai_transcribe w path st = (whisper_transcribe w content, st).
Proof. unfold openai_transcribe, bind, read_file, lift. intros ->. by destruct whisper_transcribe. Qed.

Lemma run_ffmpeg_Ok video_file audio_file st content audio :
  fs st !! video_file = Some content →
  ffmpeg_map_audio w content = Ok audio →
  run_ffmpeg w video_file audio_file st
  = (Ok tt, update_fs (insert audio_file audio) st).
Proof. unfold run_ffmpeg, bind, lift, write_file. by intros -> ->. Qed.

Lemma run_ffmpeg_Raise video_file audio_file st content e :
  fs st !! video_file = Some content →
  ffmpeg_map_audio w content = Raise e →
  run_ffmpeg w video_file audio_file st = (Raise e, st).
Proof. unfold run_ffmpeg, bind, lift. by intros -> ->. Qed.

Lemma save_frame_Ok clip output_path t st frame :
  clip_save_frame clip t = Ok frame →
  save_frame clip output_path t st
  = (Ok tt, update_fs (insert output_path frame)
              (add_call (CallSaveFrame output_path t) st)).
Proof. unfold save_frame, bind, record_call, lift, write_file. by intros ->. Qed.

Lemma save_frame_Raise clip output_path t st e :
  clip_save_frame clip t = Raise e →
  save_frame clip output_path t st
  = (Raise e, add_call (CallSaveFrame output_path t) st).
Proof. unfold save_frame, bind, record_call, lift. by intros ->. Qed.

Lemma os_remove_found path st content :
  fs st !! path = Some content →
  os_remove path st
  = (Ok tt, update_fs (delete path) (add_call (CallRemove path) st)).
Proof. unfold os_remove, bind, record_call. cbn [fs add_call]. by intros ->. Qed.
End Steps.

(** ** The stages of [main.py] *)
Section MainSteps.
Context (w : World).

Lemma main_download_video_Ok video_id filename st content :
  ydl_download w Main.ydl_format (watch_url video_id) = Ok content →
  Main.download_video w video_id filename st
  = (Ok filename, update_fs (insert filename content) st).
Proof.
  intros H. unfold Main.download_video.
  apply try_except_Ok. by erewrite bind_Ok by by apply YoutubeDL_download_Ok.
Qed.

Lemma main_download_video_Raise video_id filename st e :
  ydl_download w Main.ydl_format (watch_url video_id) = Raise e →
  Main.download_video w video_id filename st
  = (Raise (HTTPException 500 ("Error downloading video: " +:+ str_exc e)),
     add_log ("Error downloading video: " +:+ str_exc e) st).
Proof.
  intros H. unfold Main.download_video.
  erewrite try_except_Raise; [reflexivity |].
  by erewrite bind_Raise by by apply YoutubeDL_download_Raise.
Qed.

Lemma main_write_audio_Ok clip audio_file st audio :
  clip_audio clip = Some (Ok audio) →
  audio_write_audiofile clip audio_file st
  = (Ok tt, update_fs (insert audio_file audio) st).
Proof. unfold audio_write_audiofile. by intros ->. Qed.

Lemma main_write_audio_None clip audio_file st :
  clip_audio clip = None →
  audio_write_audiofile clip audio_file st
  = (Raise (PyError "'NoneType' object has no attribute 'write_audiofile'"), st).
Proof. unfold audio_write_audiofile. by intros ->. Qed.

Lemma main_write_audio_Raise clip audio_file st e :
  clip_audio clip = Some (Raise e) →
  audio_write_audiofile clip audio_file st = (Raise e, st).
Proof. unfold audio_write_audiofile. by intros ->. Qed.

Lemma main_extract_audio_peaks_Ok audio_path st content segment :
  fs st !! audio_path = Some content →
  AudioSegment_from_file w content = Ok segment →
  Main.extract_audio_peaks w audio_path st = (Ok (audio_peaks segment), st).
Proof.
  intros Hf Hd. unfold Main.extract_audio_peaks.
  apply try_except_Ok.
  erewrite bind_Ok; [reflexivity |].
  by rewrite (AudioSegment_open_found _ _ _ _ Hf), Hd.
Qed.

Lemma main_extract_audio_peaks_Raise audio_path st content e :
  fs st !! audio_path = Some content →
  AudioSegment_from_file w content = Raise e →
  Main.extract_audio_peaks w audio_path st
  = (Raise (HTTPException 500 ("Error extracting audio peaks: " +:+ str_exc e)),
     add_log ("Error extracting audio peaks: " +:+ str_exc e) st).
Proof.
  intros Hf Hd. unfold Main.extract_audio_peaks.
  erewrite try_except_Raise; [reflexivity |].
  erewrite bind_Raise; [reflexivity |].
  by rewrite (AudioSegment_open_found _ _ _ _ Hf), Hd.
Qed.

Lemma main_transcribe_audio_Ok audio_path st content text :
  fs st !! audio_path = Some content →
  whisper_transcribe w content = Ok text →
  Main.transcribe_audio w audio_path st = (Ok text, st).
Proof.
  intros Hf Hd. unfold Main.transcribe_audio.
  apply try_except_Ok. by rewrite (openai_transcribe_found _ _ _ _ Hf), Hd.
Qed.

Lemma main_transcribe_audio_Raise audio_path st content e :
  fs st !! audio_path = Some content →
  whisper_transcribe w content = Raise e →
  Main.transcribe_audio w audio_path st
  = (Raise (HTTPException 500 ("Error transcribing audio: " +:+ str_exc e)),
     add_log ("Error transcribing audio: " +:+ str_exc e) st).
Proof.
  intros Hf Hd. unfold Main.transcribe_audio.
  erewrite try_except_Raise; [reflexivity |].
  by rewrite (openai_transcribe_found _ _ _ _ Hf), Hd.
Qed.

Lemma main_extract_frame_Ok video_path time_str output_path st content clip t frame :
  fs st !! video_path = Some content →
  VideoFileClip_open w content = Ok clip →
  parse_time time_str = Ok t →
  clip_save_frame clip t = Ok frame →
  Main.extract_frame w video_path time_str output_path st
  = (Ok output_path,
     update_fs (insert output_path frame)
       (add_call (CallSaveFrame output_path t)
          (add_call (CallExtractFrame video_path time_str output_path) st))).
Proof.
  intros Hf Ho Hp Hs. unfold Main.extract_frame.
  erewrite bind_Ok by reflexivity.
  apply try_except_Ok.
  erewrite bind_Ok by (rewrite VideoFileClip_found with (content := content);
                       [by rewrite Ho | done]).
  erewrite bind_Ok by (unfold lift; by rewrite Hp).
  by erewrite bind_Ok by by apply save_frame_Ok.
Qed.

Lemma main_extract_frame_Raise video_path time_str output_path st content clip t e :
  fs st !! video_path = Some content →
  VideoFileClip_open w content = Ok clip →
  parse_time time_str = Ok t →
  clip_save_frame clip t = Raise e →
  Main.extract_frame w video_path time_str output_path st
  = (Raise (HTTPException 500 ("Error extracting frame: " +:+ str_exc e)),
     add_log ("Error extracting frame: " +:+ str_exc e)
       (add_call (CallSaveFrame output_path t)
          (add_call (CallExtractFrame video_path time_str output_path) st))).
Proof.
  intros Hf Ho Hp Hs. unfold Main.extract_frame.
  erewrite bind_Ok by reflexivity.
  erewrite try_except_Raise; [reflexivity |].
  erewrite bind_Ok by (rewrite VideoFileClip_found with (content := content);
                       [by rewrite Ho | done]).
  erewrite bind_Ok by (unfold lift; by rewrite Hp).
  by erewrite bind_Raise by by apply save_frame_Raise.
Qed.

(** The clean-up loop of main.py:148-150 on two files that are there. *)
Lemma main_cleanup video_file audio_file st video audio :
  video_file ≠ audio_file →
  fs st !! video_file = Some video →
  fs st !! audio_file = Some audio →
  for_each [video_file; audio_file]
    (λ file, let* present := os_path_exists file in
             if present then os_remove file else ret tt) st
  = (Ok tt,
     update_fs (delete audio_file)
       (add_call (CallRemove audio_file)
          (update_fs (delete video_file)
             (add_call (CallRemove video_file) st)))).
Proof.
  intros Hne Hv Ha. cbn [for_each].
  unfold bind at 1. unfold bind at 1. unfold os_path_exists at 1.
  rewrite Hv. rewrite bool_decide_eq_true_2 by by eexists.
  rewrite (os_remove_found _ _ _ Hv).
  unfold bind at 1. unfold bind at 1. unfold os_path_exists at 1.
  cbn [fs update_fs add_call].
  rewrite lookup_delete_ne by done. rewrite Ha.
  rewrite bool_decide_eq_true_2 by by eexists.
  rewrite os_remove_found with (content := audio).
  - reflexivity.
  - cbn [fs update_fs add_call]. by rewrite lookup_delete_ne.
Qed.
End MainSteps.

(** ** Every run of [main.py]'s endpoint is one of the listed outcomes *)

Ltac fs_simpl :=
  cbn [fs calls update_fs add_call add_log next_draw initial].

Lemma main_names_video_audio w draws :
  MainRun.video_file w draws ≠ MainRun.audio_file w draws.
Proof. apply main_video_audio. Qed.

Lemma main_names_video_frame w draws :
  MainRun.video_file w draws ≠ MainRun.frame_file w draws.
Proof. apply main_video_frame. Qed.

Lemma main_names_audio_frame w draws :
  MainRun.audio_file w draws ≠ MainRun.frame_file w draws.
Proof. apply main_audio_frame. Qed.

Lemma top_peaks_nonneg segment peak :
  peak ∈ top_peaks segment → 0 ≤ peak.2 < Qfloor (duration_seconds segment).
Proof.
  intros Hin. apply elem_of_take in Hin as (i & Hin & _).
  apply list_elem_of_lookup_2 in Hin.
  rewrite ranked_Permutation in Hin.
  by apply elem_of_loudness_scores in Hin as [? _].
Qed.

Lemma audio_peaks_nil segment : top_peaks segment = [] → audio_peaks segment = [].
Proof. unfold audio_peaks. by intros ->. Qed.

Lemma audio_peaks_cons segment peak rest :
  top_peaks segment = peak :: rest →
  audio_peaks segment
  = format_time peak.2 :: ((λ p : Score, format_time p.2) <$> rest).
Proof. unfold audio_peaks. by intros ->. Qed.

Lemma uuid_uuid4_step w st :
  uuid_uuid4 w st = (Ok (uuid4 w (uuid_draws st)), next_draw st).
Proof. reflexivity. Qed.

Lemma index0_cons {A} (x : A) l st : index0 (x :: l) st = (Ok x, st).
Proof. reflexivity. Qed.

Lemma index0_nil {A} st :
  index0 (@nil A) st = (Raise (PyError "list index out of range"), st).
Proof. reflexivity. Qed.

Lemma index0_audio_peaks_cons segment peak rest st :
  top_peaks segment = peak :: rest →
  index0 (audio_peaks segment) st = (Ok (format_time peak.2), st).
Proof. intros H. by rewrite (audio_peaks_cons _ _ _ H). Qed.

Lemma index0_audio_peaks_nil segment st :
  top_peaks segment = [] →
  index0 (audio_peaks segment) st = (Raise (PyError "list index out of range"), st).
Proof. intros H. by rewrite (audio_peaks_nil _ H). Qed.

Lemma top_peaks_head_nonneg segment peak rest :
  top_peaks segment = peak :: rest → 0 ≤ peak.2.
Proof.
  intros H. apply (top_peaks_nonneg segment peak). rewrite H. apply list_elem_of_here.
Qed.

Ltac name_ne :=
  first [ apply main_video_audio | apply main_video_frame | apply main_audio_frame
        | apply not_eq_sym; first [ apply main_video_audio | apply main_video_frame
                                  | apply main_audio_frame ]
        | apply pv_video_audio | apply pv_video_frame
        | apply not_eq_sym; first [ apply pv_video_audio | apply pv_video_frame ]
        | discriminate ].

Ltac fs_lookup :=
  fs_simpl;
  repeat first [ rewrite lookup_insert_eq
               | rewrite lookup_insert_ne by name_ne
               | rewrite lookup_delete_ne by name_ne ];
  reflexivity.

Section MainOutcome.
Context (w : World) (data : Main.VideoRequest)
        (files : gmap string bytes) (draws : nat).

Ltac main_step :=
  first
    [ erewrite bind_Ok by first
        [ apply uuid_uuid4_step
        | apply main_download_video_Ok; eassumption
        | eapply VideoFileClip_found_Ok; [fs_lookup | eassumption]
        | apply main_write_audio_Ok; eassumption
        | eapply main_extract_audio_peaks_Ok; [fs_lookup | eassumption]
        | eapply main_transcribe_audio_Ok; [fs_lookup | eassumption]
        | eapply index0_audio_peaks_cons; eassumption
        | eapply main_extract_frame_Ok;
          [ fs_lookup | eassumption
          | eapply parse_time_format_time, top_peaks_head_nonneg; eassumption
          | eassumption ]
        | eapply main_cleanup; [name_ne | fs_lookup | fs_lookup]
        | reflexivity ]
    | erewrite bind_Raise by first
        [ apply main_download_video_Raise; eassumption
        | eapply VideoFileClip_found_Raise; [fs_lookup | eassumption]
        | apply main_write_audio_None; eassumption
        | apply main_write_audio_Raise; eassumption
        | eapply main_extract_audio_peaks_Raise; [fs_lookup | eassumption]
        | eapply main_transcribe_audio_Raise; [fs_lookup | eassumption]
        | eapply index0_audio_peaks_nil; eassumption
        | eapply main_extract_frame_Raise;
          [ fs_lookup | eassumption
          | eapply parse_time_format_time, top_peaks_head_nonneg; eassumption
          | eassumption ] ] ];
  cbv beta zeta.

Ltac main_fails :=
  erewrite try_except_Raise by (repeat main_step; reflexivity).

Lemma main_process_video_outcome :
  MainRun.outcome w data files draws
    (Main.process_video w data (initial files draws)).1
    (Main.process_video w data (initial files draws)).2.
Proof.
  unfold Main.process_video.
  destruct (MainRun.downloaded w data) as [video | e] eqn:Hdl;
    pose proof Hdl as Hdl'; unfold MainRun.downloaded in Hdl'.
  2: { main_fails. by eapply MainRun.download_failed. }
  destruct (VideoFileClip_open w video) as [clip | e] eqn:Hopen.
  2: { main_fails. by eapply MainRun.open_failed. }
  destruct (clip_audio clip) as [[audio | e] |] eqn:Haudio.
  2: { main_fails. by eapply MainRun.write_audio_failed. }
  2: { main_fails. by eapply MainRun.no_audio_track. }
  destruct (AudioSegment_from_file w audio) as [segment | e] eqn:Hseg.
  2: { main_fails. by eapply MainRun.analysis_failed. }
  destruct (whisper_transcribe w audio) as [text | e] eqn:Htext.
  2: { main_fails. by eapply MainRun.transcription_failed. }
  destruct (top_peaks segment) as [| peak rest] eqn:Hpeaks.
  { main_fails. by eapply MainRun.no_peak. }
  destruct (clip_save_frame clip peak.2) as [frame | e] eqn:Hframe.
  2: { main_fails. by eapply MainRun.frame_failed. }
  erewrite try_except_Ok by (repeat main_step; reflexivity).
  by eapply MainRun.completed.
Qed.
End MainOutcome.
(** ** The stages of [process_video.py], and its runs *)
Section PVOutcome.
Context (w : World) (data : ProcessVideo.VideoRequest)
        (files : gmap string bytes) (draws : nat).

Lemma pv_download_video_Ok video_id filename st content :
  ydl_download w ProcessVideo.ydl_format (watch_url video_id) = Ok content →
  ProcessVideo.download_video w video_id filename st
  = (Ok filename, update_fs (insert filename content) st).
Proof.
  intros H. unfold ProcessVideo.download_video.
  by erewrite bind_Ok by by apply YoutubeDL_download_Ok.
Qed.

Lemma pv_download_video_Raise video_id filename st e :
  ydl_download w ProcessVideo.ydl_format (watch_url video_id) = Raise e →
  ProcessVideo.download_video w video_id filename st = (Raise e, st).
Proof.
  intros H. unfold ProcessVideo.download_video.
  by erewrite bind_Raise by by apply YoutubeDL_download_Raise.
Qed.

Lemma pv_extract_audio_peaks_found audio_path st content :
  fs st !! audio_path = Some content →
  ProcessVideo.extract_audio_peaks w audio_path st
  = (match AudioSegment_from_file w content with
     | Ok segment => Ok (audio_peaks segment)
     | Raise e => Raise e
     end, st).
Proof.
  intros Hf. unfold ProcessVideo.extract_audio_peaks, bind.
  rewrite (AudioSegment_open_found _ _ _ _ Hf).
  by destruct AudioSegment_from_file.
Qed.

Lemma pv_extract_audio_peaks_Ok audio_path st content segment :
  fs st !! audio_path = Some content →
  AudioSegment_from_file w content = Ok segment →
  ProcessVideo.extract_audio_peaks w audio_path st = (Ok (audio_peaks segment), st).
Proof. intros Hf Hd. by rewrite (pv_extract_audio_peaks_found _ _ _ Hf), Hd. Qed.

Lemma pv_extract_audio_peaks_Raise audio_path st content e :
  fs st !! audio_path = Some content →
  AudioSegment_from_file w content = Raise e →
  ProcessVideo.extract_audio_peaks w audio_path st = (Raise e, st).
Proof. intros Hf Hd. by rewrite (pv_extract_audio_peaks_found _ _ _ Hf), Hd. Qed.

Lemma pv_transcribe_audio_Ok audio_path st content text :
  fs st !! audio_path = Some content →
  whisper_transcribe w content = Ok text →
  ProcessVideo.transcribe_audio w audio_path st = (Ok text, st).
Proof.
  intros Hf Hd. unfold ProcessVideo.transcribe_audio.
  by rewrite (openai_transcribe_found _ _ _ _ Hf), Hd.
Qed.

Lemma pv_transcribe_audio_Raise audio_path st content e :
  fs st !! audio_path = Some content →
  whisper_transcribe w content = Raise e →
  ProcessVideo.transcribe_audio w audio_path st = (Raise e, st).
Proof.
  intros Hf Hd. unfold ProcessVideo.transcribe_audio.
  by rewrite (openai_transcribe_found _ _ _ _ Hf), Hd.
Qed.

Lemma pv_extract_frame_Ok video_path time_str output_path st content clip t frame :
  fs st !! video_path = Some content →
  VideoFileClip_open w content = Ok clip →
  parse_time time_str = Ok t →
  clip_save_frame clip t = Ok frame →
  ProcessVideo.extract_frame w video_path time_str output_path st
  = (Ok output_path,
     update_fs (insert output_path frame)
       (add_call (CallSaveFrame output_path t)
          (add_call (CallExtractFrame video_path time_str output_path) st))).
Proof.
  intros Hf Ho Hp Hs. unfold ProcessVideo.extract_frame.
  erewrite bind_Ok by reflexivity.
  erewrite bind_Ok by (eapply VideoFileClip_found_Ok; [exact Hf | exact Ho]).
  erewrite bind_Ok by (unfold lift; by rewrite Hp).
  by erewrite bind_Ok by by apply save_frame_Ok.
Qed.

Lemma pv_extract_frame_open_Raise video_path time_str output_path st content e :
  fs st !! video_path = Some content →
  VideoFileClip_open w content = Raise e →
  ProcessVideo.extract_frame w video_path time_str output_path st
  = (Raise e, add_call (CallExtractFrame video_path time_str output_path) st).
Proof.
  intros Hf Ho. unfold ProcessVideo.extract_frame.
  erewrite bind_Ok by reflexivity.
  by erewrite bind_Raise by (eapply VideoFileClip_found_Raise; [exact Hf | exact Ho]).
Qed.

Lemma pv_extract_frame_save_Raise
    video_path time_str output_path st content clip t e :
  fs st !! video_path = Some content →
  VideoFileClip_open w content = Ok clip →
  parse_time time_str = Ok t →
  clip_save_frame clip t = Raise e →
  ProcessVideo.extract_frame w video_path time_str output_path st
  = (Raise e,
     add_call (CallSaveFrame output_path t)
       (add_call (CallExtractFrame video_path time_str output_path) st)).
Proof.
  intros Hf Ho Hp Hs. unfold ProcessVideo.extract_frame.
  erewrite bind_Ok by reflexivity.
  erewrite bind_Ok by (eapply VideoFileClip_found_Ok; [exact Hf | exact Ho]).
  erewrite bind_Ok by (unfold lift; by rewrite Hp).
  by erewrite bind_Raise by by apply save_frame_Raise.
Qed.

Ltac pv_step :=
  first
    [ erewrite bind_Ok by first
        [ apply uuid_uuid4_step
        | apply pv_download_video_Ok; eassumption
        | eapply run_ffmpeg_Ok; [fs_lookup | eassumption]
        | eapply pv_extract_audio_peaks_Ok; [fs_lookup | eassumption]
        | eapply pv_transcribe_audio_Ok; [fs_lookup | eassumption]
        | eapply index0_audio_peaks_cons; eassumption
        | eapply pv_extract_frame_Ok;
          [ fs_lookup | eassumption
          | eapply parse_time_format_time, top_peaks_head_nonneg; eassumption
          | eassumption ]
        | eapply os_remove_found; fs_lookup ]
    | erewrite bind_Raise by first
        [ apply pv_download_video_Raise; eassumption
        | eapply run_ffmpeg_Raise; [fs_lookup | eassumption]
        | eapply pv_extract_audio_peaks_Raise; [fs_lookup | eassumption]
        | eapply pv_transcribe_audio_Raise; [fs_lookup | eassumption]
        | eapply index0_audio_peaks_nil; eassumption
        | eapply pv_extract_frame_open_Raise; [fs_lookup | eassumption]
        | eapply pv_extract_frame_save_Raise;
          [ fs_lookup | eassumption
          | eapply parse_time_format_time, top_peaks_head_nonneg; eassumption
          | eassumption ] ] ];
  cbv beta zeta.

Ltac pv_fails :=
  erewrite try_except_Raise by (repeat pv_step; reflexivity).

Lemma pv_process_video_outcome :
  ∃ reply st,
    ProcessVideo.process_video w data (initial files draws) = (Ok reply, st)
    ∧ PVRun.outcome w data files draws reply st.
Proof.
  unfold ProcessVideo.process_video. cbv zeta.
  erewrite bind_Ok by apply uuid_uuid4_step. cbv beta.
  destruct (PVRun.downloaded w data) as [video | e] eqn:Hdl;
    pose proof Hdl as Hdl'; unfold PVRun.downloaded in Hdl'.
  2: { pv_fails. do 2 eexists. split; [reflexivity |].
       by eapply PVRun.download_failed. }
  destruct (ffmpeg_map_audio w video) as [audio | e] eqn:Haudio.
  2: { pv_fails. do 2 eexists. split; [reflexivity |].
       by eapply PVRun.ffmpeg_failed. }
  destruct (AudioSegment_from_file w audio) as [segment | e] eqn:Hseg.
  2: { pv_fails. do 2 eexists. split; [reflexivity |].
       by eapply PVRun.analysis_failed. }
  destruct (whisper_transcribe w audio) as [text | e] eqn:Htext.
  2: { pv_fails. do 2 eexists. split; [reflexivity |].
       by eapply PVRun.transcription_failed. }
  destruct (top_peaks segment) as [| peak rest] eqn:Hpeaks.
  { pv_fails. do 2 eexists. split; [reflexivity |].
    by eapply PVRun.no_peak. }
  destruct (VideoFileClip_open w video) as [clip | e] eqn:Hopen.
  2: { pv_fails. do 2 eexists. split; [reflexivity |].
       by eapply PVRun.open_failed. }
  destruct (clip_save_frame clip peak.2) as [frame | e] eqn:Hframe.
  2: { pv_fails. do 2 eexists. split; [reflexivity |].
       by eapply PVRun.frame_failed. }
  erewrite try_except_Ok by (repeat pv_step; reflexivity).
  do 2 eexists. split; [reflexivity |].
  by eapply PVRun.completed.
Qed.
End PVOutcome.

(** ** Ranking: strict order and ties *)

Lemma ranked_NoDup audio : NoDup (ranked audio).
Proof. eapply NoDup_fmap_1, ranked_NoDup_indices. Qed.

Lemma ranked_lookup_desc audio (a b : nat) p q :
  (a < b)%nat → ranked audio !! a = Some p → ranked audio !! b = Some q →
  tuple_lt q p = true.
Proof.
  intros Hab Ha Hb.
  pose proof (StronglySorted_lookup_lt _ _ _ _ _ _ (ranked_sorted audio) Hab Ha Hb) as Hge.
  destruct (tuple_lt q p) eqn:Hqp; [done |].
  pose proof (tuple_lt_total _ _ Hge Hqp) as ->.
  pose proof (NoDup_lookup _ _ _ _ (ranked_NoDup audio) Ha Hb). lia.
Qed.

Lemma window_in_ranked audio i :
  0 ≤ i < Qfloor (duration_seconds audio) →
  (slice_dBFS audio (i * 1000) ((i + 1) * 1000), i) ∈ ranked audio.
Proof.
  intros Hi. rewrite ranked_Permutation. by apply elem_of_loudness_scores.
Qed.

(** Of two equally loud windows the later one is ranked first. *)
Lemma ranked_tie_later_first audio i j :
  0 ≤ i → i < j → j < Qfloor (duration_seconds audio) →
  slice_dBFS audio (i * 1000) ((i + 1) * 1000)
  = slice_dBFS audio (j * 1000) ((j + 1) * 1000) →
  ∃ a b : nat,
    (a < b)%nat
    ∧ ranked audio !! a = Some (slice_dBFS audio (j * 1000) ((j + 1) * 1000), j)
    ∧ ranked audio !! b = Some (slice_dBFS audio (i * 1000) ((i + 1) * 1000), i).
Proof.
  intros Hi Hij Hj Hloud.
  destruct (list_elem_of_lookup_1 _ _ (window_in_ranked audio i ltac:(lia))) as [b Hb].
  destruct (list_elem_of_lookup_1 _ _ (window_in_ranked audio j ltac:(lia))) as [a Ha].
  exists a, b. split; [| done].
  destruct (lt_eq_lt_dec a b) as [[Hlt | Heq] | Hgt]; [done | |].
  - subst. rewrite Ha in Hb. injection Hb. lia.
  - pose proof (ranked_lookup_desc _ _ _ _ _ Hgt Hb Ha) as Hdesc.
    unfold tuple_lt in Hdesc. cbn [fst snd] in Hdesc.
    rewrite Hloud in Hdesc.
    rewrite (proj2 (dBFS_eqb_eq _ _) eq_refl) in Hdesc. lia.
Qed.

Lemma top_peaks_lookup audio (a : nat) p :
  top_peaks audio !! a = Some p ↔ ranked audio !! a = Some p ∧ (a < 5)%nat.
Proof. unfold top_peaks. apply lookup_take_Some. Qed.

Lemma top_peaks_NoDup_indices audio : NoDup (top_peaks audio).*2.
Proof.
  unfold top_peaks. rewrite fmap_take.
  eapply sublist_NoDup; [apply ranked_NoDup_indices | apply sublist_take].
Qed.

Lemma top_peaks_adjacent audio (k : nat) p q :
  top_peaks audio !! k = Some p → top_peaks audio !! S k = Some q →
  dBFS_geb p.1 q.1 = true.
Proof.
  intros [Hp _]%top_peaks_lookup [Hq _]%top_peaks_lookup.
  apply tuple_ge_loudness.
  apply (StronglySorted_lookup_lt _ _ k (S k) _ _ (ranked_sorted audio)); [lia | done | done].
Qed.

Lemma top_peaks_window audio p :
  p ∈ top_peaks audio →
  0 ≤ p.2 < Qfloor (duration_seconds audio)
  ∧ p.1 = slice_dBFS audio (p.2 * 1000) ((p.2 + 1) * 1000).
Proof.
  intros (i & Hin & _)%elem_of_take.
  apply list_elem_of_lookup_2 in Hin.
  rewrite ranked_Permutation in Hin.
  by apply elem_of_loudness_scores.
Qed.

(** * Sanity checks of the embedding *)

Example scores_of_spec_scenario :
  audio_peaks {| frame_count := 3 * 44100; frame_rate := 44100;
                 slice_dBFS := λ a _, if a =? 0 then Fin (-20)
                                      else if a =? 1000 then Fin (-5)
                                      else Fin (-30) |}
  = ["00:00:01"; "00:00:00"; "00:00:02"]%string.
Proof. vm_compute. reflexivity. Qed.

Example format_time_3725 : format_time 3725 = "01:02:05"%string.
Proof. vm_compute. reflexivity. Qed.

Example format_time_100h : format_time 360000 = "100:00:00"%string.
Proof. vm_compute. reflexivity. Qed.

Example parse_time_3725 : parse_time "01:02:05" = Ok 3725.
Proof. vm_compute. reflexivity. Qed.

Example parse_time_spaces : parse_time " 1:+2_0: -5 " = Ok (3600 + 1200 - 5).
Proof. vm_compute. reflexivity. Qed.

Example parse_time_short : parse_time "02:05"
  = Raise (PyError "not enough values to unpack (expected 3, got 2)").
Proof. vm_compute. reflexivity. Qed.

Example py_repr_plain : py_repr "01:0x" = "'01:0x'"%string.
Proof. vm_compute. reflexivity. Qed.

Example py_repr_quote : py_repr "it's" = String (ascii_of_nat 34) ("it's" +:+ String (ascii_of_nat 34) EmptyString).
Proof. vm_compute. reflexivity. Qed.

Example py_repr_escapes :
  py_repr (String (ascii_of_nat 31) (String (ascii_of_nat 9) "a\b")) = "'\x1f\ta\\b'"%string.
Proof. vm_compute. reflexivity. Qed.

Example int_of_str_unit_separator :
  int_of_str (String (ascii_of_nat 31) "1")
  = Raise (PyError "invalid literal for int() with base 10: '\x1f1'").
Proof. vm_compute. reflexivity. Qed.
(** * The claims about the loudness analysis and the timestamps *)

(** C1.  For an audio artifact of duration [D] seconds, [extract_audio_peaks]
    (both modules) returns a list of exactly [min(5, floor(D))] peaks, and
    so does the ranking it is rendered from; for [D < 1] the list is
    empty. *)
Theorem peak_list_length w st audio_path content audio :
  fs st !! audio_path = Some content →
  AudioSegment_from_file w content = Ok audio →
  ∃ peaks,
    Main.extract_audio_peaks w audio_path st = (Ok peaks, st)
    ∧ ProcessVideo.extract_audio_peaks w audio_path st = (Ok peaks, st)
    ∧ Z.of_nat (length peaks) = Z.min 5 (Qfloor (duration_seconds audio))
    ∧ Z.of_nat (length (top_peaks audio)) = Z.min 5 (Qfloor (duration_seconds audio))
    ∧ (Qlt (duration_seconds audio) 1 → peaks = []).
Proof.
  intros Hfile Hdecode. exists (audio_peaks audio).
  split; [by eapply main_extract_audio_peaks_Ok |].
  split; [by eapply pv_extract_audio_peaks_Ok |].
  split; [apply audio_peaks_length |].
  split; [apply top_peaks_length |].
  intros Hshort. apply nil_length_inv, Nat2Z.inj.
  rewrite audio_peaks_length, (duration_below_one _ Hshort). reflexivity.
Qed.

Lemma peak_list_length_witness :
  ∃ peaks,
    Main.extract_audio_peaks Scenario.all_good "clip.mp3" audio_on_disk
    = (Ok peaks, audio_on_disk)
    ∧ ProcessVideo.extract_audio_peaks Scenario.all_good "clip.mp3" audio_on_disk
      = (Ok peaks, audio_on_disk)
    ∧ Z.of_nat (length peaks) = Z.min 5 (Qfloor (duration_seconds Scenario.three_seconds))
    ∧ Z.of_nat (length (top_peaks Scenario.three_seconds))
      = Z.min 5 (Qfloor (duration_seconds Scenario.three_seconds))
    ∧ (Qlt (duration_seconds Scenario.three_seconds) 1 → peaks = []).
Proof.
  apply (peak_list_length Scenario.all_good audio_on_disk "clip.mp3"
           Scenario.audio_bytes Scenario.three_seconds).
  - vm_compute. reflexivity.
  - reflexivity.
Defined.

(** C3.  The PeakList behind the returned timestamps is sorted by loudness
    descending (every adjacent pair satisfies [loudness[i] >= loudness[i+1]]),
    its window indices are pairwise distinct and lie in [[0, floor(D))], and
    each sample carries the loudness of its own one-second window. *)
Theorem peak_list_sorted_distinct w st audio_path content audio :
  fs st !! audio_path = Some content →
  AudioSegment_from_file w content = Ok audio →
  Main.extract_audio_peaks w audio_path st
  = (Ok ((λ p : Score, format_time p.2) <$> top_peaks audio), st)
  ∧ ProcessVideo.extract_audio_peaks w audio_path st
    = (Ok ((λ p : Score, format_time p.2) <$> top_peaks audio), st)
  ∧ (∀ (k : nat) p q,
        top_peaks audio !! k = Some p → top_peaks audio !! S k = Some q →
        dBFS_geb p.1 q.1 = true)
  ∧ NoDup (top_peaks audio).*2
  ∧ (∀ p, p ∈ top_peaks audio →
          0 ≤ p.2 < Qfloor (duration_seconds audio)
          ∧ p.1 = slice_dBFS audio (p.2 * 1000) ((p.2 + 1) * 1000)).
Proof.
  intros Hfile Hdecode.
  split; [by eapply main_extract_audio_peaks_Ok |].
  split; [by eapply pv_extract_audio_peaks_Ok |].
  split; [apply top_peaks_adjacent |].
  split; [apply top_peaks_NoDup_indices |].
  apply top_peaks_window.
Qed.

Lemma peak_list_sorted_distinct_witness :
  top_peaks Scenario.with_tie
  = [(Fin (-3), 4); (Fin (-3), 1); (Fin (-10), 0); (Fin (-2010), 2); (Fin (-3010), 3)]
  ∧ NoDup (top_peaks Scenario.with_tie).*2.
Proof.
  split; [vm_compute; reflexivity |].
  refine (proj1 (proj2 (proj2 (proj2
    (peak_list_sorted_distinct
       {| uuid4 := uuid4 Scenario.all_good;
          utcnow_isoformat := utcnow_isoformat Scenario.all_good;
          ydl_download := ydl_download Scenario.all_good;
          VideoFileClip_open := VideoFileClip_open Scenario.all_good;
          ffmpeg_map_audio := ffmpeg_map_audio Scenario.all_good;
          AudioSegment_from_file := λ _, Ok Scenario.with_tie;
          whisper_transcribe := whisper_transcribe Scenario.all_good |}
       audio_on_disk "clip.mp3" Scenario.audio_bytes Scenario.with_tie _ _))))).
  - vm_compute. reflexivity.
  - reflexivity.
Defined.

(** C4.  The windows are ranked by the pair [(loudness, windowIndex)],
    descending: the ranking is strictly decreasing in the tuple order, the
    PeakList is its first five entries, and of two windows with identical
    loudness the later one (larger index) comes ahead of the earlier one, in
    the ranking and, when the earlier one made it, in the PeakList. *)
Theorem ranking_breaks_ties_by_later_window audio :
  top_peaks audio = take 5 (sorted_reverse tuple_lt (loudness_scores audio))
  ∧ (∀ (a b : nat) p q,
        (a < b)%nat → ranked audio !! a = Some p → ranked audio !! b = Some q →
        tuple_lt q p = true)
  ∧ (∀ i j,
        0 ≤ i → i < j → j < Qfloor (duration_seconds audio) →
        slice_dBFS audio (i * 1000) ((i + 1) * 1000)
        = slice_dBFS audio (j * 1000) ((j + 1) * 1000) →
        (∃ a b : nat,
            (a < b)%nat
            ∧ ranked audio !! a = Some (slice_dBFS audio (j * 1000) ((j + 1) * 1000), j)
            ∧ ranked audio !! b = Some (slice_dBFS audio (i * 1000) ((i + 1) * 1000), i))
        ∧ (∀ b : nat,
              top_peaks audio !! b
              = Some (slice_dBFS audio (i * 1000) ((i + 1) * 1000), i) →
              ∃ a : nat,
                (a < b)%nat
                ∧ top_peaks audio !! a
                  = Some (slice_dBFS audio (j * 1000) ((j + 1) * 1000), j))).
Proof.
  split; [reflexivity |].
  split; [apply ranked_lookup_desc |].
  intros i j Hi Hij Hj Hloud.
  destruct (ranked_tie_later_first audio i j Hi Hij Hj Hloud) as (a & b & Hab & Ha & Hb).
  split; [by exists a, b |].
  intros b' [Hb' Hfive]%top_peaks_lookup.
  pose proof (NoDup_lookup _ _ _ _ (ranked_NoDup audio) Hb Hb') as ->.
  exists a. split; [done |].
  apply top_peaks_lookup. split; [done | lia].
Qed.

Lemma ranking_breaks_ties_by_later_window_witness :
  ∃ a b : nat,
    (a < b)%nat
    ∧ ranked Scenario.with_tie !! a = Some (Fin (-3), 4)
    ∧ ranked Scenario.with_tie !! b = Some (Fin (-3), 1).
Proof.
  refine (proj1 (proj2 (proj2 (ranking_breaks_ties_by_later_window Scenario.with_tie))
                   1 4 _ _ _ _)).
  - lia.
  - lia.
  - vm_compute. reflexivity.
  - reflexivity.
Defined.

(** C5.  For [0 <= s < 24*3600], rendering [s] with [format_time] and
    parsing the string back the way [extract_frame] does gives [s]; the
    rendered timestamp splits at the colons into three fields, of which the
    minutes and the seconds are in [[0,59]] and are written with exactly two
    digits, a leading zero included. *)
Theorem timestamp_round_trip s :
  0 ≤ s < 24 * 3600 →
  parse_time (format_time s) = Ok s
  ∧ split_colon (format_time s)
    = [fmt_02d (s / 3600); two_digits (s mod 3600 / 60); two_digits (s mod 60)]
  ∧ 0 ≤ s mod 3600 / 60 ≤ 59
  ∧ 0 ≤ s mod 60 ≤ 59
  ∧ int_of_str (two_digits (s mod 3600 / 60)) = Ok (s mod 3600 / 60)
  ∧ int_of_str (two_digits (s mod 60)) = Ok (s mod 60).
Proof.
  intros [Hs _].
  destruct (time_fields_bounds s Hs) as (Hh & Hm & Hsec & _).
  split; [by apply parse_time_format_time |].
  split.
  { rewrite split_colon_format_time by done.
    by rewrite (fmt_02d_two_digits (s mod 3600 / 60)), (fmt_02d_two_digits (s mod 60)) by lia. }
  split; [done |]. split; [done |].
  rewrite <- !fmt_02d_two_digits by lia.
  split; apply int_of_str_reads_as, fmt_02d_reads_as; lia.
Qed.

Lemma timestamp_round_trip_witness :
  parse_time (format_time 3725) = Ok 3725
  ∧ split_colon (format_time 3725)
    = [fmt_02d (3725 / 3600); two_digits (3725 mod 3600 / 60); two_digits (3725 mod 60)]
  ∧ 0 ≤ 3725 mod 3600 / 60 ≤ 59
  ∧ 0 ≤ 3725 mod 60 ≤ 59
  ∧ int_of_str (two_digits (3725 mod 3600 / 60)) = Ok (3725 mod 3600 / 60)
  ∧ int_of_str (two_digits (3725 mod 60)) = Ok (3725 mod 60).
Proof. apply (timestamp_round_trip 3725). lia. Defined.



(** * The claims about the orchestrator *)

Lemma main_run_inv w data files draws r st :
  Main.process_video w data (initial files draws) = (r, st) →
  MainRun.outcome w data files draws r st.
Proof.
  intros Hrun. pose proof (main_process_video_outcome w data files draws) as Hout.
  by rewrite Hrun in Hout.
Qed.

Lemma pv_run_inv w data files draws r st :
  ProcessVideo.process_video w data (initial files draws) = (r, st) →
  ∃ reply, r = Ok reply ∧ PVRun.outcome w data files draws reply st.
Proof.
  intros Hrun.
  destruct (pv_process_video_outcome w data files draws) as (reply & st' & Heq & Hout).
  rewrite Hrun in Heq. injection Heq as -> ->. by exists reply.
Qed.

Ltac main_names :=
  unfold MainRun.with_audio, MainRun.with_video,
         MainRun.video_file, MainRun.audio_file, MainRun.frame_file in *.

Ltac pv_names :=
  unfold PVRun.with_audio, PVRun.with_video,
         PVRun.video_file, PVRun.audio_file, PVRun.frame_file in *.

Ltac map_lookup :=
  repeat first [ rewrite lookup_delete_eq
               | rewrite lookup_insert_eq
               | rewrite lookup_delete_ne by first [name_ne | congruence]
               | rewrite lookup_insert_ne by first [name_ne | congruence] ].

(** Two answers of the same collaborator to the same question are equal. *)
Ltac same_answers :=
  repeat match goal with
         | H1 : ?t = _, H2 : ?t = _ |- _ => rewrite H1 in H2; simplify_eq
         end.

Lemma no_remove_frame_calls (cs : list Call) :
  cs = [] ∨ (∃ v t f i, cs = [CallExtractFrame v t f; CallSaveFrame f i])
  ∨ (∃ v t f, cs = [CallExtractFrame v t f]) →
  Forall (λ c, is_remove c = false) cs.
Proof.
  intros [-> | [(v & t & f & i & ->) | (v & t & f & ->)]]; repeat constructor.
Qed.

(** C7.  In every run that completes successfully the video and the audio
    artifact are gone afterwards and were removed by the orchestrator, the
    frame artifact is still on disk and its reference is what the result
    carries, and every other file of the scratch directory is as it was. *)
Theorem success_cleanup w files draws :
  (∀ data response st,
      Main.process_video w data (initial files draws) = (Ok response, st) →
      fs st !! MainRun.video_file w draws = None
      ∧ fs st !! MainRun.audio_file w draws = None
      ∧ is_Some (fs st !! MainRun.frame_file w draws)
      ∧ (∀ name, name ≠ MainRun.video_file w draws →
                 name ≠ MainRun.audio_file w draws →
                 name ≠ MainRun.frame_file w draws →
                 fs st !! name = files !! name)
      ∧ (∀ name, CallRemove name ∈ calls st ↔
                 name = MainRun.video_file w draws ∨ name = MainRun.audio_file w draws)
      ∧ Main.r_frame_url response = "/frames/" +:+ basename (MainRun.frame_file w draws))
  ∧ (∀ data title transcription wave_peaks frame_url st,
        ProcessVideo.process_video w data (initial files draws)
        = (Ok (ProcessVideo.Result title transcription wave_peaks frame_url), st) →
        fs st !! PVRun.video_file w draws = None
        ∧ fs st !! PVRun.audio_file = None
        ∧ is_Some (fs st !! PVRun.frame_file)
        ∧ (∀ name, name ≠ PVRun.video_file w draws →
                   name ≠ PVRun.audio_file →
                   name ≠ PVRun.frame_file →
                   fs st !! name = files !! name)
        ∧ (∀ name, CallRemove name ∈ calls st ↔
                   name = PVRun.video_file w draws ∨ name = PVRun.audio_file)
        ∧ frame_url = "https://your-cdn.com/temp/" +:+ PVRun.frame_file).
Proof.
  split.
  - intros data response st Hrun.
    apply main_run_inv in Hrun. inversion Hrun as [| | | | | | | |
      video clip audio segment text peak rest frame st' _ _ _ _ _ _ _ Hfs Hcalls].
    subst. rewrite Hfs, Hcalls. main_names.
    split; [by map_lookup |]. split; [by map_lookup |].
    split; [map_lookup; by eexists |].
    split; [intros name Hv Ha Hf; by map_lookup |].
    split; [| done].
    intros name. unfold MainRun.frame_calls. cbn [app].
    rewrite !elem_of_cons, elem_of_nil. split.
    + intros [? | [? | [[= ->] | [[= ->] | []]]]]; try discriminate; auto.
    + intros [-> | ->]; auto.
  - intros data title transcription wave_peaks frame_url st Hrun.
    apply pv_run_inv in Hrun as (reply & [= <-] & Hout).
    inversion Hout as [| | | | | | |
      video audio segment text peak rest clip frame st' _ _ _ _ _ _ _ Hfs Hcalls].
    subst. rewrite Hfs, Hcalls. pv_names.
    split; [by map_lookup |]. split; [by map_lookup |].
    split; [map_lookup; by eexists |].
    split; [intros name Hv Ha Hf; by map_lookup |].
    split; [| done].
    intros name. unfold PVRun.frame_calls. cbn [app].
    rewrite !elem_of_cons, elem_of_nil. split.
    + intros [? | [? | [[= ->] | [[= ->] | []]]]]; try discriminate; auto.
    + intros [-> | ->]; auto.
Qed.

Lemma success_cleanup_witness :
  ∃ response st,
    Main.process_video Scenario.all_good Scenario.main_request (initial ∅ 0)
    = (Ok response, st)
    ∧ fs st !! MainRun.video_file Scenario.all_good 0 = None
    ∧ fs st !! MainRun.audio_file Scenario.all_good 0 = None
    ∧ is_Some (fs st !! MainRun.frame_file Scenario.all_good 0).
Proof.
  destruct (Main.process_video Scenario.all_good Scenario.main_request (initial ∅ 0))
    as [[response | e] st] eqn:Hrun.
  - exists response, st. split; [reflexivity |].
    destruct (proj1 (success_cleanup Scenario.all_good ∅ 0)
                Scenario.main_request response st Hrun)
      as (Hv & Ha & Hf & _).
    exact (conj Hv (conj Ha Hf)).
  - vm_compute in Hrun. discriminate Hrun.
Defined.

(** C2, as stated, fails: when the video has no audio track the run fails
    after the download, the video artifact is still on disk, and what the
    caller gets is the bare text of the exception. *)
Lemma failure_leaves_video_behind :
  let main_run :=
    Main.process_video Scenario.no_audio Scenario.main_request (initial ∅ 0) in
  let pv_run :=
    ProcessVideo.process_video Scenario.no_audio Scenario.pv_request (initial ∅ 0) in
  main_run.1
  = Raise (HTTPException 500 "'NoneType' object has no attribute 'write_audiofile'")
  ∧ fs main_run.2 !! MainRun.video_file Scenario.no_audio 0 = Some Scenario.video_bytes
  ∧ pv_run.1
    = Ok (ProcessVideo.Error "Command 'ffmpeg' returned non-zero exit status 1.")
  ∧ fs pv_run.2 !! PVRun.video_file Scenario.no_audio 0 = Some Scenario.video_bytes.
Proof. vm_compute. repeat split; reflexivity. Qed.

(** C2, amended.  A run in which a stage fails ends in a single error that
    carries [str] of the exception that stopped it, never in a (partial)
    result: [main.py] raises HTTP 500 with that text as detail (for the four
    wrapped helpers the exception is their own HTTP 500 with the stage
    prefix, for the audio extraction and [peaks[0]] it is the raw exception),
    [process_video.py] returns [{"error": text}] and never raises.  Nothing is
    deleted in such a run: the files are the initial ones plus the video and
    audio artifacts written before the failure, and [os.remove] is not
    called. *)
Theorem failure_keeps_artifacts w files draws :
  (∀ data,
      let run := Main.process_video w data (initial files draws) in
      let video_file := MainRun.video_file w draws in
      let audio_file := MainRun.audio_file w draws in
      let frame_file := MainRun.frame_file w draws in
      (∀ e,
          MainRun.downloaded w data = Raise e →
          run.1 = Raise (HTTPException 500
                    (str_exc (HTTPException 500
                                ("Error downloading video: " +:+ str_exc e))))
          ∧ fs run.2 = files ∧ calls run.2 = [])
      ∧ (∀ video e,
            MainRun.downloaded w data = Ok video →
            VideoFileClip_open w video = Raise e →
            run.1 = Raise (HTTPException 500 (str_exc e))
            ∧ fs run.2 = <[video_file := video]> files ∧ calls run.2 = [])
      ∧ (∀ video clip,
            MainRun.downloaded w data = Ok video →
            VideoFileClip_open w video = Ok clip →
            clip_audio clip = None →
            run.1 = Raise (HTTPException 500
                      "'NoneType' object has no attribute 'write_audiofile'")
            ∧ fs run.2 = <[video_file := video]> files ∧ calls run.2 = [])
      ∧ (∀ video clip e,
            MainRun.downloaded w data = Ok video →
            VideoFileClip_open w video = Ok clip →
            clip_audio clip = Some (Raise e) →
            run.1 = Raise (HTTPException 500 (str_exc e))
            ∧ fs run.2 = <[video_file := video]> files ∧ calls run.2 = [])
      ∧ (∀ video clip audio e,
            MainRun.downloaded w data = Ok video →
            VideoFileClip_open w video = Ok clip →
            clip_audio clip = Some (Ok audio) →
            AudioSegment_from_file w audio = Raise e →
            run.1 = Raise (HTTPException 500
                      (str_exc (HTTPException 500
                                  ("Error extracting audio peaks: " +:+ str_exc e))))
            ∧ fs run.2 = <[audio_file := audio]> (<[video_file := video]> files)
            ∧ calls run.2 = [])
      ∧ (∀ video clip audio segment e,
            MainRun.downloaded w data = Ok video →
            VideoFileClip_open w video = Ok clip →
            clip_audio clip = Some (Ok audio) →
            AudioSegment_from_file w audio = Ok segment →
            whisper_transcribe w audio = Raise e →
            run.1 = Raise (HTTPException 500
                      (str_exc (HTTPException 500
                                  ("Error transcribing audio: " +:+ str_exc e))))
            ∧ fs run.2 = <[audio_file := audio]> (<[video_file := video]> files)
            ∧ calls run.2 = [])
      ∧ (∀ video clip audio segment text,
            MainRun.downloaded w data = Ok video →
            VideoFileClip_open w video = Ok clip →
            clip_audio clip = Some (Ok audio) →
            AudioSegment_from_file w audio = Ok segment →
            whisper_transcribe w audio = Ok text →
            top_peaks segment = [] →
            run.1 = Raise (HTTPException 500 "list index out of range")
            ∧ fs run.2 = <[audio_file := audio]> (<[video_file := video]> files)
            ∧ calls run.2 = [])
      ∧ (∀ video clip audio segment text peak rest e,
            MainRun.downloaded w data = Ok video →
            VideoFileClip_open w video = Ok clip →
            clip_audio clip = Some (Ok audio) →
            AudioSegment_from_file w audio = Ok segment →
            whisper_transcribe w audio = Ok text →
            top_peaks segment = peak :: rest →
            clip_save_frame clip peak.2 = Raise e →
            run.1 = Raise (HTTPException 500
                      (str_exc (HTTPException 500
                                  ("Error extracting frame: " +:+ str_exc e))))
            ∧ fs run.2 = <[audio_file := audio]> (<[video_file := video]> files)
            ∧ calls run.2 = [CallExtractFrame video_file (format_time peak.2) frame_file;
                             CallSaveFrame frame_file peak.2])
      ∧ (∀ e, run.1 = Raise e →
              Forall (λ c, is_remove c = false) (calls run.2)
              ∧ ∀ name, is_Some (files !! name) → is_Some (fs run.2 !! name)))
  ∧ (∀ data,
        let run := ProcessVideo.process_video w data (initial files draws) in
        let video_file := PVRun.video_file w draws in
        (∀ e,
            PVRun.downloaded w data = Raise e →
            run.1 = Ok (ProcessVideo.Error (str_exc e))
            ∧ fs run.2 = files ∧ calls run.2 = [])
        ∧ (∀ video e,
              PVRun.downloaded w data = Ok video →
              ffmpeg_map_audio w video = Raise e →
              run.1 = Ok (ProcessVideo.Error (str_exc e))
              ∧ fs run.2 = <[video_file := video]> files ∧ calls run.2 = [])
        ∧ (∀ video audio e,
              PVRun.downloaded w data = Ok video →
              ffmpeg_map_audio w video = Ok audio →
              AudioSegment_from_file w audio = Raise e →
              run.1 = Ok (ProcessVideo.Error (str_exc e))
              ∧ fs run.2 = <[ "temp.mp3"%string := audio]> (<[video_file := video]> files)
              ∧ calls run.2 = [])
        ∧ (∀ video audio segment e,
              PVRun.downloaded w data = Ok video →
              ffmpeg_map_audio w video = Ok audio →
              AudioSegment_from_file w audio = Ok segment →
              whisper_transcribe w audio = Raise e →
              run.1 = Ok (ProcessVideo.Error (str_exc e))
              ∧ fs run.2 = <[ "temp.mp3"%string := audio]> (<[video_file := video]> files)
              ∧ calls run.2 = [])
        ∧ (∀ video audio segment text,
              PVRun.downloaded w data = Ok video →
              ffmpeg_map_audio w video = Ok audio →
              AudioSegment_from_file w audio = Ok segment →
              whisper_transcribe w audio = Ok text →
              top_peaks segment = [] →
              run.1 = Ok (ProcessVideo.Error "list index out of range")
              ∧ fs run.2 = <[ "temp.mp3"%string := audio]> (<[video_file := video]> files)
              ∧ calls run.2 = [])
        ∧ (∀ video audio segment text peak rest e,
              PVRun.downloaded w data = Ok video →
              ffmpeg_map_audio w video = Ok audio →
              AudioSegment_from_file w audio = Ok segment →
              whisper_transcribe w audio = Ok text →
              top_peaks segment = peak :: rest →
              VideoFileClip_open w video = Raise e →
              run.1 = Ok (ProcessVideo.Error (str_exc e))
              ∧ fs run.2 = <[ "temp.mp3"%string := audio]> (<[video_file := video]> files)
              ∧ calls run.2
                = [CallExtractFrame video_file (format_time peak.2) "frame.jpg"])
        ∧ (∀ video audio segment text peak rest clip e,
              PVRun.downloaded w data = Ok video →
              ffmpeg_map_audio w video = Ok audio →
              AudioSegment_from_file w audio = Ok segment →
              whisper_transcribe w audio = Ok text →
              top_peaks segment = peak :: rest →
              VideoFileClip_open w video = Ok clip →
              clip_save_frame clip peak.2 = Raise e →
              run.1 = Ok (ProcessVideo.Error (str_exc e))
              ∧ fs run.2 = <[ "temp.mp3"%string := audio]> (<[video_file := video]> files)
              ∧ calls run.2
                = [CallExtractFrame video_file (format_time peak.2) "frame.jpg";
                   CallSaveFrame "frame.jpg" peak.2])
        ∧ (∃ reply, run.1 = Ok reply)
        ∧ (∀ error, run.1 = Ok (ProcessVideo.Error error) →
                    Forall (λ c, is_remove c = false) (calls run.2)
                    ∧ ∀ name, is_Some (files !! name) → is_Some (fs run.2 !! name))).
Proof.
  split.
  - intros data run video_file audio_file frame_file.
    pose proof (main_process_video_outcome w data files draws) as Hout.
    fold run in Hout.
    repeat split; intros;
      try (inversion Hout; same_answers; done).
    + destruct run as [r st]. cbn [fst snd] in *. subst r.
      inversion Hout;
        repeat match goal with
               | H : calls st = _ |- _ => rewrite H; clear H
               end;
        apply no_remove_frame_calls; unfold MainRun.frame_calls; eauto 10.
    + destruct run as [r st]. cbn [fst snd] in *. subst r.
      inversion Hout;
        repeat match goal with
               | H : fs st = _ |- _ => rewrite H; clear H
               end;
        main_names; rewrite ?lookup_insert_is_Some'; auto.
  - intros data run video_file.
    destruct (pv_process_video_outcome w data files draws) as (reply & st & Hrun & Hout).
    fold run in Hrun. rewrite Hrun. cbn [fst snd].
    repeat split; intros;
      try (inversion Hout; same_answers; done).
    + by exists reply.
    + simplify_eq.
      inversion Hout;
        repeat match goal with
               | H : calls st = _ |- _ => rewrite H; clear H
               end;
        apply no_remove_frame_calls; unfold PVRun.frame_calls; eauto 10.
    + simplify_eq.
      inversion Hout;
        repeat match goal with
               | H : fs st = _ |- _ => rewrite H; clear H
               end;
        pv_names; rewrite ?lookup_insert_is_Some'; auto.
Qed.

Lemma failure_keeps_artifacts_witness :
  let run :=
    Main.process_video Scenario.no_audio Scenario.main_request (initial ∅ 0) in
  run.1 = Raise (HTTPException 500
            "'NoneType' object has no attribute 'write_audiofile'")
  ∧ fs run.2 = <[MainRun.video_file Scenario.no_audio 0 := Scenario.video_bytes]> ∅
  ∧ calls run.2 = [].
Proof.
  destruct (proj1 (failure_keeps_artifacts Scenario.no_audio ∅ 0) Scenario.main_request)
    as (_ & _ & Hmute & _).
  apply (Hmute Scenario.video_bytes Scenario.mute_clip); reflexivity.
Defined.

(** C6, as stated, fails: the PeakList of the run is not empty (three peaks),
    the speech-to-text service refuses, and the frame extractor is never
    invoked. *)
Lemma transcription_failure_skips_frame_extractor :
  let main_run :=
    Main.process_video Scenario.no_transcript Scenario.main_request (initial ∅ 0) in
  let pv_run :=
    ProcessVideo.process_video Scenario.no_transcript Scenario.pv_request (initial ∅ 0) in
  (Main.extract_audio_peaks Scenario.no_transcript
     (MainRun.audio_file Scenario.no_transcript 0) main_run.2).1
  = Ok ["00:00:01"; "00:00:00"; "00:00:02"]%string
  ∧ frame_extractor_offsets (calls main_run.2) = []
  ∧ (ProcessVideo.extract_audio_peaks Scenario.no_transcript
       PVRun.audio_file pv_run.2).1
    = Ok ["00:00:01"; "00:00:00"; "00:00:02"]%string
  ∧ frame_extractor_offsets (calls pv_run.2) = [].
Proof. vm_compute. repeat split; reflexivity. Qed.

(** C6, amended.  Whenever the PeakList is non-empty and the transcription
    succeeded, the pipeline invokes the frame extractor exactly once, with the
    first rendered peak timestamp; the offset parsed from it is the
    windowIndex of [PeakList[0]], and no other offset reaches
    [clip.save_frame]. *)
Theorem frame_extractor_offset w files draws :
  (∀ data video clip audio segment text peak rest,
      MainRun.downloaded w data = Ok video →
      VideoFileClip_open w video = Ok clip →
      clip_audio clip = Some (Ok audio) →
      AudioSegment_from_file w audio = Ok segment →
      whisper_transcribe w audio = Ok text →
      top_peaks segment = peak :: rest →
      let st := (Main.process_video w data (initial files draws)).2 in
      frame_extractor_offsets (calls st) = [Ok peak.2]
      ∧ save_frame_offsets (calls st) = [peak.2]
      ∧ head (calls st)
        = Some (CallExtractFrame (MainRun.video_file w draws) (format_time peak.2)
                  (MainRun.frame_file w draws))
      ∧ head (audio_peaks segment) = Some (format_time peak.2))
  ∧ (∀ data video audio segment text peak rest,
        PVRun.downloaded w data = Ok video →
        ffmpeg_map_audio w video = Ok audio →
        AudioSegment_from_file w audio = Ok segment →
        whisper_transcribe w audio = Ok text →
        top_peaks segment = peak :: rest →
        let st := (ProcessVideo.process_video w data (initial files draws)).2 in
        frame_extractor_offsets (calls st) = [Ok peak.2]
        ∧ Forall (λ t, t = peak.2) (save_frame_offsets (calls st))
        ∧ head (calls st)
          = Some (CallExtractFrame (PVRun.video_file w draws) (format_time peak.2)
                    PVRun.frame_file)
        ∧ head (audio_peaks segment) = Some (format_time peak.2)).
Proof.
  split.
  - intros data video clip audio segment text peak rest Hdl Hopen Haudio Hseg Htext Hpeaks st.
    pose proof (main_process_video_outcome w data files draws) as Hout.
    fold st in Hout.
    pose proof (parse_time_format_time _ (top_peaks_head_nonneg _ _ _ Hpeaks)) as Hparse.
    rewrite (audio_peaks_cons _ _ _ Hpeaks).
    inversion Hout; same_answers;
      match goal with H : calls st = _ |- _ => rewrite H end;
      unfold MainRun.frame_calls, frame_extractor_offsets, save_frame_offsets;
      cbn [omap list_omap app head]; by rewrite Hparse.
  - intros data video audio segment text peak rest Hdl Haudio Hseg Htext Hpeaks st.
    destruct (pv_process_video_outcome w data files draws) as (reply & st' & Hrun & Hout).
    assert (st = st') as -> by (subst st; by rewrite Hrun).
    pose proof (parse_time_format_time _ (top_peaks_head_nonneg _ _ _ Hpeaks)) as Hparse.
    rewrite (audio_peaks_cons _ _ _ Hpeaks).
    inversion Hout; same_answers;
      match goal with H : calls st' = _ |- _ => rewrite H end;
      unfold PVRun.frame_calls, frame_extractor_offsets, save_frame_offsets;
      cbn [omap list_omap app head]; rewrite Hparse;
      (split; [done |]); (split; [repeat constructor | done]).
Qed.

Lemma frame_extractor_offset_witness :
  let st := (Main.process_video Scenario.all_good Scenario.main_request (initial ∅ 0)).2 in
  frame_extractor_offsets (calls st) = [Ok 1]
  ∧ save_frame_offsets (calls st) = [1]
  ∧ head (calls st)
    = Some (CallExtractFrame (MainRun.video_file Scenario.all_good 0) (format_time 1)
              (MainRun.frame_file Scenario.all_good 0))
  ∧ head (audio_peaks Scenario.three_seconds) = Some (format_time 1).
Proof.
  apply (proj1 (frame_extractor_offset Scenario.all_good ∅ 0)
           Scenario.main_request Scenario.video_bytes Scenario.good_clip
           Scenario.audio_bytes Scenario.three_seconds "hello"%string
           (Fin (-5), 1) [(Fin (-20), 0); (Fin (-30), 2)]).
  - reflexivity.
  - reflexivity.
  - reflexivity.
  - reflexivity.
  - reflexivity.
  - vm_compute. reflexivity.
Defined.

(** C8.  For a valid video whose audio lasts 0 seconds (or any time below
    one second), the loudness analysis returns the empty PeakList without
    raising, and the run never invokes the frame extractor: no call of
    [extract_frame], no call of [clip.save_frame]. *)
Theorem zero_duration_run w files draws :
  (∀ data video clip audio segment,
      MainRun.downloaded w data = Ok video →
      VideoFileClip_open w video = Ok clip →
      clip_audio clip = Some (Ok audio) →
      AudioSegment_from_file w audio = Ok segment →
      Qlt (duration_seconds segment) 1 →
      let st := (Main.process_video w data (initial files draws)).2 in
      Main.extract_audio_peaks w (MainRun.audio_file w draws) st = (Ok [], st)
      ∧ frame_extractor_offsets (calls st) = []
      ∧ save_frame_offsets (calls st) = [])
  ∧ (∀ data video audio segment,
        PVRun.downloaded w data = Ok video →
        ffmpeg_map_audio w video = Ok audio →
        AudioSegment_from_file w audio = Ok segment →
        Qlt (duration_seconds segment) 1 →
        let st := (ProcessVideo.process_video w data (initial files draws)).2 in
        ProcessVideo.extract_audio_peaks w PVRun.audio_file st = (Ok [], st)
        ∧ frame_extractor_offsets (calls st) = []
        ∧ save_frame_offsets (calls st) = []).
Proof.
  assert (∀ segment, Qlt (duration_seconds segment) 1 → top_peaks segment = [])
    as Hempty.
  { intros segment Hshort. apply nil_length_inv, Nat2Z.inj.
    rewrite top_peaks_length, (duration_below_one _ Hshort). reflexivity. }
  split.
  - intros data video clip audio segment Hdl Hopen Haudio Hseg Hshort st.
    pose proof (main_process_video_outcome w data files draws) as Hout.
    fold st in Hout. pose proof (Hempty _ Hshort) as Hnil.
    rewrite <- (audio_peaks_nil _ Hnil).
    inversion Hout; same_answers;
      match goal with
      | Hfs : fs st = _, Hcalls : calls st = _ |- _ =>
          rewrite Hcalls;
          (split; [eapply main_extract_audio_peaks_Ok;
                   [rewrite Hfs; main_names; by map_lookup | done] | done])
      end.
  - intros data video audio segment Hdl Haudio Hseg Hshort st.
    destruct (pv_process_video_outcome w data files draws) as (reply & st' & Hrun & Hout).
    assert (st = st') as -> by (subst st; by rewrite Hrun).
    pose proof (Hempty _ Hshort) as Hnil.
    rewrite <- (audio_peaks_nil _ Hnil).
    inversion Hout; same_answers;
      match goal with
      | Hfs : fs st' = _, Hcalls : calls st' = _ |- _ =>
          rewrite Hcalls;
          (split; [eapply pv_extract_audio_peaks_Ok;
                   [rewrite Hfs; pv_names; by map_lookup | done] | done])
      end.
Qed.

Lemma zero_duration_run_witness :
  let st := (Main.process_video Scenario.silent Scenario.main_request (initial ∅ 0)).2 in
  Main.extract_audio_peaks Scenario.silent (MainRun.audio_file Scenario.silent 0) st
  = (Ok [], st)
  ∧ frame_extractor_offsets (calls st) = []
  ∧ save_frame_offsets (calls st) = [].
Proof.
  apply (proj1 (zero_duration_run Scenario.silent ∅ 0)
           Scenario.main_request Scenario.video_bytes Scenario.good_clip
           Scenario.audio_bytes Scenario.empty_audio).
  - reflexivity.
  - reflexivity.
  - reflexivity.
  - reflexivity.
  - vm_compute. reflexivity.
Defined.

(** C9 fails on [process_video.py]: only the video name is drawn per run, the
    audio and the frame go to the fixed names [temp.mp3] and [frame.jpg].
    Any two completed runs, whatever their requests and uuid draws, both
    remove [temp.mp3] and both save their frame to [frame.jpg]; they return
    the same frame reference, and after the second run that file holds the
    second run's frame. *)
Theorem pv_runs_share_artifact_paths
    w files draws1 draws2 data1 data2 t1 x1 p1 url1 st1 t2 x2 p2 url2 st2 :
  ProcessVideo.process_video w data1 (initial files draws1)
  = (Ok (ProcessVideo.Result t1 x1 p1 url1), st1) →
  ProcessVideo.process_video w data2 (initial (fs st1) draws2)
  = (Ok (ProcessVideo.Result t2 x2 p2 url2), st2) →
  CallRemove "temp.mp3" ∈ calls st1 ∧ CallRemove "temp.mp3" ∈ calls st2
  ∧ (∃ i1 i2, CallSaveFrame "frame.jpg" i1 ∈ calls st1
              ∧ CallSaveFrame "frame.jpg" i2 ∈ calls st2)
  ∧ url1 = url2
  ∧ ∃ video clip audio segment peak rest frame,
      PVRun.downloaded w data2 = Ok video
      ∧ VideoFileClip_open w video = Ok clip
      ∧ ffmpeg_map_audio w video = Ok audio
      ∧ AudioSegment_from_file w audio = Ok segment
      ∧ top_peaks segment = peak :: rest
      ∧ clip_save_frame clip peak.2 = Ok frame
      ∧ fs st2 !! "frame.jpg" = Some frame.
Proof.
  intros Hrun1 Hrun2.
  apply pv_run_inv in Hrun1 as (reply1 & [= <-] & Hout1).
  apply pv_run_inv in Hrun2 as (reply2 & [= <-] & Hout2).
  inversion Hout1 as [| | | | | | |
    video1 audio1 segment1 text1 peak1 rest1 clip1 frame1 st1' ? ? ? ? ? ? ? Hfs1 Hcalls1].
  inversion Hout2 as [| | | | | | |
    video2 audio2 segment2 text2 peak2 rest2 clip2 frame2 st2' ? ? ? ? ? ? ? Hfs2 Hcalls2].
  subst. rewrite Hcalls1, Hcalls2. unfold PVRun.frame_calls. pv_names.
  split; [set_solver |]. split; [set_solver |].
  split; [exists peak1.2, peak2.2; set_solver |].
  split; [done |].
  exists video2, clip2, audio2, segment2, peak2, rest2, frame2.
  repeat (split; [done |]).
  rewrite Hfs2. pv_names. by map_lookup.
Qed.

Lemma pv_runs_share_artifact_paths_witness :
  ∃ (st1 st2 : State) (url1 url2 : string),
    CallRemove "temp.mp3" ∈ calls st1 ∧ CallRemove "temp.mp3" ∈ calls st2
    ∧ url1 = url2
    ∧ fs st1 !! "frame.jpg" = Some Scenario.frame_bytes
    ∧ fs st2 !! "frame.jpg" = Some Scenario.frame_bytes.
Proof.
  destruct (ProcessVideo.process_video Scenario.two_videos
              {| ProcessVideo.videoId := "A" |} (initial ∅ 0))
    as [[[t1 x1 p1 url1 | error1] | e1] st1] eqn:Hrun1;
    [| vm_compute in Hrun1; discriminate Hrun1
     | vm_compute in Hrun1; discriminate Hrun1].
  destruct (ProcessVideo.process_video Scenario.two_videos
              {| ProcessVideo.videoId := "B" |} (initial (fs st1) 1))
    as [[[t2 x2 p2 url2 | error2] | e2] st2] eqn:Hrun2.
  - exists st1, st2, url1, url2.
    destruct (pv_runs_share_artifact_paths _ _ _ _ _ _ _ _ _ _ _ _ _ _ _ _ Hrun1 Hrun2)
      as (Hr1 & Hr2 & _ & Hurl & _).
    split; [exact Hr1 |]. split; [exact Hr2 |]. split; [exact Hurl |].
    vm_compute in Hrun1. injection Hrun1 as _ _ _ _ <-.
    vm_compute in Hrun2. injection Hrun2 as _ _ _ _ <-.
    split; vm_compute; reflexivity.
  - vm_compute in Hrun1. injection Hrun1 as _ _ _ _ <-.
    vm_compute in Hrun2. discriminate Hrun2.
  - vm_compute in Hrun1. injection Hrun1 as _ _ _ _ <-.
    vm_compute in Hrun2. discriminate Hrun2.
Defined.

(** * Further properties of the timestamp functions *)

(** X1.  [format_time] is invertible on the non-negative numbers of seconds
    whose hour field has at most 4300 digits (the numbers Python renders at
    all), not only below 24 hours: parsing the rendered string the way
    [extract_frame] does gives the seconds back, so two different window
    indices never render to the same timestamp. *)
Theorem format_time_invertible s1 s2 :
  0 ≤ s1 < 3600 * 10 ^ max_str_digits →
  0 ≤ s2 < 3600 * 10 ^ max_str_digits →
  parse_time (format_time s1) = Ok s1
  ∧ (format_time s1 = format_time s2 → s1 = s2).
Proof.
  intros [H1 _] [H2 _]. split; [by apply parse_time_format_time |].
  intros Heq.
  pose proof (parse_time_format_time s1 H1) as P1.
  pose proof (parse_time_format_time s2 H2) as P2.
  rewrite Heq, P2 in P1. by injection P1.
Qed.

Lemma format_time_invertible_witness :
  parse_time (format_time 360000) = Ok 360000
  ∧ (format_time 360000 = format_time 1 → 360000 = 1).
Proof.
  apply (format_time_invertible 360000 1);
    (split; [lia | apply Z.ltb_lt; vm_compute; reflexivity]).
Defined.

(** X2.  The parse of [extract_frame] wants exactly three colon-separated
    fields: a timestamp with fewer or more fields raises, whatever the
    fields hold. *)
Theorem parse_time_wrong_field_count time_str :
  length (split_colon time_str) ≠ 3%nat →
  ∃ e, parse_time time_str = Raise e.
Proof.
  intros Hlen. unfold parse_time.
  destruct (split_colon time_str) as [| a [| b [| c [| d more]]]]; cbn [length] in Hlen;
    try done; unfold result_bind;
    repeat match goal with
           | |- context [int_of_str ?x] => destruct (int_of_str x)
           end; by eexists.
Qed.

Lemma parse_time_wrong_field_count_witness :
  ∃ e, parse_time "01:02:05:00" = Raise e.
Proof.
  apply (parse_time_wrong_field_count "01:02:05:00").
  vm_compute. discriminate.
Defined.

(** X3.  The parse checks no range and needs no padding: any three
    non-negative decimal fields [h:m:s] of at most 4300 digits each are
    accepted and read as [h*3600 + m*60 + s], also with minutes or seconds
    above 59. *)
Theorem parse_time_unpadded_fields h m s :
  0 ≤ h < 10 ^ max_str_digits →
  0 ≤ m < 10 ^ max_str_digits →
  0 ≤ s < 10 ^ max_str_digits →
  parse_time (decimal h +:+ ":" +:+ decimal m +:+ ":" +:+ decimal s)
  = Ok (h * 3600 + m * 60 + s).
Proof.
  intros [Hh _] [Hm _] [Hs _].
  pose proof (decimal_reads_as h Hh) as Rh.
  pose proof (decimal_reads_as m Hm) as Rm.
  pose proof (decimal_reads_as s Hs) as Rs.
  unfold parse_time.
  change (decimal h +:+ ":" +:+ decimal m +:+ ":" +:+ decimal s)
    with (decimal h +:+ String ":" (decimal m +:+ String ":" (decimal s))).
  rewrite split_colon_digits_colon by apply Rh.
  rewrite split_colon_digits_colon by apply Rm.
  rewrite split_colon_digits by apply Rs.
  rewrite (int_of_str_reads_as _ _ Rh), (int_of_str_reads_as _ _ Rm),
          (int_of_str_reads_as _ _ Rs).
  reflexivity.
Qed.

Lemma parse_time_unpadded_fields_witness :
  parse_time (decimal 0 +:+ ":" +:+ decimal 90 +:+ ":" +:+ decimal 75)
  = Ok (0 * 3600 + 90 * 60 + 75).
Proof.
  apply (parse_time_unpadded_fields 0 90 75);
    (split; [lia | apply Z.ltb_lt; vm_compute; reflexivity]).
Defined.

(** * Further properties of the loudness analysis *)

(** X4.  The PeakList holds the loudest windows: a window of the audio that
    did not make it into the PeakList is at most as loud as every peak in
    it. *)
Theorem top_peaks_are_the_loudest audio i p :
  0 ≤ i < Qfloor (duration_seconds audio) →
  i ∉ (top_peaks audio).*2 →
  p ∈ top_peaks audio →
  dBFS_geb p.1 (slice_dBFS audio (i * 1000) ((i + 1) * 1000)) = true.
Proof.
  intros Hi Hout Hp.
  apply elem_of_take in Hp as (a & Ha & Hfive).
  destruct (list_elem_of_lookup_1 _ _ (window_in_ranked audio i Hi)) as [b Hb].
  assert (5 ≤ b)%nat as Hb5.
  { destruct (le_lt_dec 5 b) as [| Hlt]; [done |].
    exfalso. apply Hout. apply list_elem_of_fmap.
    exists (slice_dBFS audio (i * 1000) ((i + 1) * 1000), i). split; [done |].
    apply elem_of_take. exists b. split; [done | lia]. }
  apply tuple_ge_loudness with (q := (slice_dBFS audio (i * 1000) ((i + 1) * 1000), i)).
  apply tuple_lt_asym.
  apply (ranked_lookup_desc audio a b); [lia | done | done].
Qed.

Lemma top_peaks_are_the_loudest_witness :
  dBFS_geb (Fin (-3010)) (slice_dBFS Scenario.with_tie (5 * 1000) ((5 + 1) * 1000)) = true.
Proof.
  apply (top_peaks_are_the_loudest Scenario.with_tie 5 (Fin (-3010), 3)).
  - vm_compute. split; [discriminate | reflexivity].
  - vm_compute. intros H. repeat (apply elem_of_cons in H as [H | H]; [discriminate H |]).
    by apply elem_of_nil in H.
  - vm_compute. do 4 apply list_elem_of_further. apply list_elem_of_here.
Defined.

(** X5.  The timestamps [extract_audio_peaks] returns are pairwise distinct,
    at most five, and each is the rendering of a window index of the audio. *)
Theorem audio_peaks_distinct audio :
  NoDup (audio_peaks audio)
  ∧ (length (audio_peaks audio) ≤ 5)%nat
  ∧ ∀ t, t ∈ audio_peaks audio →
         ∃ i, 0 ≤ i < Qfloor (duration_seconds audio) ∧ t = format_time i.
Proof.
  split; [| split].
  - unfold audio_peaks.
    apply NoDup_fmap_2_strong.
    + intros p q Hp Hq Heq.
      apply top_peaks_window in Hp as [Hp1 Hp2], Hq as [Hq1 Hq2].
      assert (p.2 = q.2) as Hidx.
      { pose proof (parse_time_format_time p.2 ltac:(lia)) as P1.
        pose proof (parse_time_format_time q.2 ltac:(lia)) as P2.
        rewrite Heq, P2 in P1. by injection P1. }
      destruct p as [lp ip], q as [lq iq]. cbn [fst snd] in *. congruence.
    + eapply NoDup_fmap_1, top_peaks_NoDup_indices.
  - pose proof (audio_peaks_length audio). lia.
  - intros t (p & -> & Hp)%list_elem_of_fmap.
    exists p.2. split; [by apply top_peaks_window | done].
Qed.

Lemma audio_peaks_distinct_witness :
  NoDup (audio_peaks Scenario.with_tie)
  ∧ (length (audio_peaks Scenario.with_tie) ≤ 5)%nat.
Proof.
  destruct (audio_peaks_distinct Scenario.with_tie) as (Hdistinct & Hlen & _).
  exact (conj Hdistinct Hlen).
Defined.

(** * Further properties of the frame extractor *)







(** * Further properties of the runs *)

Lemma list_ascii_of_string_inj s1 s2 :
  list_ascii_of_string s1 = list_ascii_of_string s2 → s1 = s2.
Proof.
  intros H. rewrite <- (string_of_list_ascii_of_string s1),
                    <- (string_of_list_ascii_of_string s2).
  by rewrite H.
Qed.

Lemma string_app_inv_tail (s1 s2 t : string) : s1 +:+ t = s2 +:+ t → s1 = s2.
Proof.
  intros H. apply list_ascii_of_string_inj.
  apply (f_equal list_ascii_of_string) in H.
  rewrite !list_ascii_of_string_app in H. by apply app_inv_tail in H.
Qed.

Lemma temp_name_inj token1 token2 ext :
  Main.temp_name token1 ext = Main.temp_name token2 ext → token1 = token2.
Proof.
  unfold Main.temp_name. intros H.
  apply (inj (String.app "temp_")) in H.
  by apply string_app_inv_tail in H.
Qed.

(** X10.  In [main.py] the three artifact names of a run are pairwise
    distinct whatever the uuids, and two runs whose uuid tokens differ
    position by position use disjoint names. *)
Theorem main_runs_use_disjoint_paths w draws1 draws2 :
  NoDup (main_run_paths w draws1)
  ∧ (uuid4 w draws1 ≠ uuid4 w draws2 →
     uuid4 w (S draws1) ≠ uuid4 w (S draws2) →
     uuid4 w (S (S draws1)) ≠ uuid4 w (S (S draws2)) →
     ∀ path, path ∈ main_run_paths w draws1 → path ∉ main_run_paths w draws2).
Proof.
  split.
  - unfold main_run_paths. repeat constructor; rewrite ?elem_of_cons, elem_of_nil.
    + intros [H | [H | []]]; revert H;
        [apply main_names_video_audio | apply main_names_video_frame].
    + intros [H | []]; revert H; apply main_names_audio_frame.
    + by intros [].
  - intros H00 H11 H22 path Hin1 Hin2. unfold main_run_paths in *.
    rewrite !elem_of_cons, elem_of_nil in Hin1, Hin2.
    unfold MainRun.video_file, MainRun.audio_file, MainRun.frame_file in *.
    destruct Hin1 as [-> | [-> | [-> | []]]], Hin2 as [H | [H | [H | []]]];
      first [ apply temp_name_inj in H; first [by apply H00 | by apply H11 | by apply H22]
            | revert H; name_ne ].
Qed.

Lemma main_runs_use_disjoint_paths_witness :
  MainRun.video_file Scenario.all_good 0 ∉ main_run_paths Scenario.all_good 3.
Proof.
  apply (proj2 (main_runs_use_disjoint_paths Scenario.all_good 0 3)).
  - vm_compute. discriminate.
  - vm_compute. discriminate.
  - vm_compute. discriminate.
  - apply list_elem_of_here.
Defined.

(** X11.  A valid video whose audio is shorter than one second makes the run
    fail after the transcription, at [peaks[0]]: the caller gets the text of
    the index error, and the video and audio artifacts stay on disk. *)
Theorem short_audio_run_ends_in_index_error w files draws :
  (∀ data video clip audio segment text,
      MainRun.downloaded w data = Ok video →
      VideoFileClip_open w video = Ok clip →
      clip_audio clip = Some (Ok audio) →
      AudioSegment_from_file w audio = Ok segment →
      Qlt (duration_seconds segment) 1 →
      whisper_transcribe w audio = Ok text →
      let run := Main.process_video w data (initial files draws) in
      run.1 = Raise (HTTPException 500 "list index out of range")
      ∧ fs run.2 = MainRun.with_audio w files draws video audio)
  ∧ (∀ data video audio segment text,
        PVRun.downloaded w data = Ok video →
        ffmpeg_map_audio w video = Ok audio →
        AudioSegment_from_file w audio = Ok segment →
        Qlt (duration_seconds segment) 1 →
        whisper_transcribe w audio = Ok text →
        let run := ProcessVideo.process_video w data (initial files draws) in
        run.1 = Ok (ProcessVideo.Error "list index out of range")
        ∧ fs run.2 = PVRun.with_audio w files draws video audio).
Proof.
  assert (∀ segment, Qlt (duration_seconds segment) 1 → top_peaks segment = [])
    as Hempty.
  { intros segment Hshort. apply nil_length_inv, Nat2Z.inj.
    rewrite top_peaks_length, (duration_below_one _ Hshort). reflexivity. }
  split.
  - intros data video clip audio segment text Hdl Hopen Haudio Hseg Hshort Htext run.
    pose proof (main_process_video_outcome w data files draws) as Hout.
    fold run in Hout. pose proof (Hempty _ Hshort) as Hnil.
    inversion Hout; same_answers. by split.
  - intros data video audio segment text Hdl Haudio Hseg Hshort Htext run.
    destruct (pv_process_video_outcome w data files draws) as (reply & st & Hrun & Hout).
    fold run in Hrun. rewrite Hrun. cbn [fst snd].
    pose proof (Hempty _ Hshort) as Hnil.
    inversion Hout; same_answers. by split.
Qed.

Lemma short_audio_run_ends_in_index_error_witness :
  let run := Main.process_video Scenario.silent Scenario.main_request (initial ∅ 0) in
  run.1 = Raise (HTTPException 500 "list index out of range")
  ∧ fs run.2 = MainRun.with_audio Scenario.silent ∅ 0
                 Scenario.video_bytes Scenario.audio_bytes.
Proof.
  apply (proj1 (short_audio_run_ends_in_index_error Scenario.silent ∅ 0)
           Scenario.main_request Scenario.video_bytes Scenario.good_clip
           Scenario.audio_bytes Scenario.empty_audio "hello"%string).
  - reflexivity.
  - reflexivity.
  - reflexivity.
  - reflexivity.
  - vm_compute. reflexivity.
  - reflexivity.
Defined.

(** X12.  A successful run of [main.py] answers with the request's [videoId],
    the watch URL built from it, status [success], the clock's timestamp,
    the text of the transcription service verbatim and at most five peak
    timestamps, the first of which is the one the frame was taken at. *)
Theorem main_success_response w data files draws response st :
  Main.process_video w data (initial files draws) = (Ok response, st) →
  Main.r_videoId response = Main.videoId data
  ∧ Main.r_title response = "https://www.youtube.com/watch?v=" +:+ Main.videoId data
  ∧ Main.r_status response = "success"%string
  ∧ Main.r_timestamp response = utcnow_isoformat w
  ∧ (length (Main.r_wave_peaks response) ≤ 5)%nat
  ∧ ∃ video clip audio segment index,
      MainRun.downloaded w data = Ok video
      ∧ VideoFileClip_open w video = Ok clip
      ∧ clip_audio clip = Some (Ok audio)
      ∧ AudioSegment_from_file w audio = Ok segment
      ∧ whisper_transcribe w audio = Ok (Main.r_transcription response)
      ∧ Main.r_wave_peaks response = audio_peaks segment
      ∧ head (Main.r_wave_peaks response) = Some (format_time index)
      ∧ save_frame_offsets (calls st) = [index].
Proof.
  intros Hrun. apply main_run_inv in Hrun.
  inversion Hrun as [| | | | | | | |
    video clip audio segment text peak rest frame st' Hdl Hopen Haudio Hseg Htext
    Hpeaks Hframe Hfs Hcalls].
  subst. cbn [Main.r_videoId Main.r_title Main.r_status Main.r_timestamp
              Main.r_wave_peaks Main.r_transcription].
  repeat (split; [done |]).
  split; [pose proof (audio_peaks_length segment); lia |].
  exists video, clip, audio, segment, peak.2.
  repeat (split; [done |]).
  split; [by rewrite (audio_peaks_cons _ _ _ Hpeaks) |].
  by rewrite Hcalls.
Qed.

Lemma main_success_response_witness :
  ∃ response st,
    Main.process_video Scenario.all_good Scenario.main_request (initial ∅ 0)
    = (Ok response, st)
    ∧ Main.r_videoId response = Main.videoId Scenario.main_request
    ∧ Main.r_status response = "success"%string.
Proof.
  destruct (Main.process_video Scenario.all_good Scenario.main_request (initial ∅ 0))
    as [[response | e] st] eqn:Hrun.
  - exists response, st. split; [reflexivity |].
    destruct (main_success_response _ _ _ _ _ _ Hrun) as (Hid & _ & Hstatus & _).
    exact (conj Hid Hstatus).
  - vm_compute in Hrun. discriminate Hrun.
Defined.

(** X13.  When the download fails the run stops there: no artifact is
    created, the frame extractor and the clean-up are never called, and the
    caller gets an error ([process_video.py]: the text of yt-dlp's
    exception). *)
Theorem download_failure_creates_nothing w files draws :
  (∀ data e,
      MainRun.downloaded w data = Raise e →
      let run := Main.process_video w data (initial files draws) in
      (∃ detail, run.1 = Raise (HTTPException 500 detail))
      ∧ fs run.2 = files ∧ calls run.2 = [])
  ∧ (∀ data e,
        PVRun.downloaded w data = Raise e →
        let run := ProcessVideo.process_video w data (initial files draws) in
        run.1 = Ok (ProcessVideo.Error (str_exc e))
        ∧ fs run.2 = files ∧ calls run.2 = []).
Proof.
  split.
  - intros data e Hdl run.
    pose proof (main_process_video_outcome w data files draws) as Hout.
    fold run in Hout.
    inversion Hout; same_answers. split; [by eexists | done].
  - intros data e Hdl run.
    destruct (pv_process_video_outcome w data files draws) as (reply & st & Hrun & Hout).
    fold run in Hrun. rewrite Hrun. cbn [fst snd].
    inversion Hout; same_answers. done.
Qed.

Lemma download_failure_creates_nothing_witness :
  let run :=
    ProcessVideo.process_video unreachable_video Scenario.pv_request (initial ∅ 0) in
  run.1 = Ok (ProcessVideo.Error "ERROR: Video unavailable")
  ∧ fs run.2 = ∅ ∧ calls run.2 = [].
Proof.
  apply (proj2 (download_failure_creates_nothing unreachable_video ∅ 0)
           Scenario.pv_request (PyError "ERROR: Video unavailable")).
  reflexivity.
Defined.
